(** * Project builder MCP server: merge engine, state store, subscriber hub

    A shallow embedding of the state-synchronisation core of the server:

    - [utils/file_manager.py]: [deep_merge_dict], [update_json_file] and
      the small on-disk document store they work on;
    - [utils/broadcast_manager.py]: the set [connected_frontends],
      [broadcast_to_frontends], the [keep_alive] probe and the poll loop
      [watch_current_project_file];
    - [server_mcp_sdk.py]: the global [current_project_data] with its
      [state_version] counter, the four mutating command handlers and the
      background task [periodic_broadcast].

    Python values are modelled as a tree of JSON data.  Python integers are
    [Z]; floating point numbers are not part of the embedding.  Dictionaries
    are association lists in insertion order, as the interpreter keeps
    them. *)

From stdpp Require Import base strings list gmap.
From Stdlib Require Import ZArith Lia.

Open Scope string_scope.
Open Scope list_scope.

(* ================================================================== *)
(** ** JSON values as Python sees them *)
(* ================================================================== *)

Module Json.

Unset Elimination Schemes.
Inductive value : Type :=
| VNone
| VBool (b : bool)
| VInt (n : Z)
| VStr (s : string)
| VList (items : list value)
| VDict (entries : list (string * value)).
Set Elimination Schemes.

Abbreviation dict := (list (string * value)).

(** Induction over the nesting of lists and dictionaries. *)
Section value_induction.
Variable P : value → Prop.
Hypothesis HNone : P VNone.
Hypothesis HBool : ∀ b, P (VBool b).
Hypothesis HInt : ∀ n, P (VInt n).
Hypothesis HStr : ∀ s, P (VStr s).
Hypothesis HList : ∀ items, Forall P items → P (VList items).
Hypothesis HDict : ∀ entries, Forall (λ kv, P kv.2) entries → P (VDict entries).

Fixpoint value_ind (v : value) : P v :=
  match v with
  | VNone => HNone
  | VBool b => HBool b
  | VInt n => HInt n
  | VStr s => HStr s
  | VList items =>
      HList items
        ((fix all (l : list value) : Forall P l :=
            match l with
            | [] => Forall_nil_2 P
            | x :: l' => Forall_cons_2 P x l' (value_ind x) (all l')
            end) items)
  | VDict entries =>
      HDict entries
        ((fix all (l : dict) : Forall (λ kv, P kv.2) l :=
            match l with
            | [] => Forall_nil_2 _
            | kv :: l' => Forall_cons_2 (λ kv, P kv.2) kv l' (value_ind kv.2) (all l')
            end) entries)
  end.
End value_induction.

Definition is_dict (v : value) : bool :=
  match v with VDict _ => true | _ => false end.

Definition is_list (v : value) : bool :=
  match v with VList _ => true | _ => false end.

Definition is_str (v : value) : bool :=
  match v with VStr _ => true | _ => false end.

(** [d[key]] / [d.get(key)] and [key in d]. *)
Fixpoint dict_get (key : string) (d : dict) : option value :=
  match d with
  | [] => None
  | (k, v) :: d' => if decide (k = key) then Some v else dict_get key d'
  end.

Definition dict_has (key : string) (d : dict) : bool :=
  match dict_get key d with Some _ => true | None => false end.

(** [d[key] = v]: an existing key keeps its place, a new key goes last. *)
Fixpoint dict_set (key : string) (v : value) (d : dict) : dict :=
  match d with
  | [] => [(key, v)]
  | (k, w) :: d' =>
      if decide (k = key) then (k, v) :: d' else (k, w) :: dict_set key v d'
  end.

Definition keys (d : dict) : list string := d.*1.

(** [del d[key]]. *)
Fixpoint dict_del (key : string) (d : dict) : dict :=
  match d with
  | [] => []
  | (k, w) :: d' =>
      if decide (k = key) then d' else (k, w) :: dict_del key d'
  end.

(** [d.get(key, default)]. *)
Definition dict_get_default (key : string) (default : value) (d : dict) : value :=
  match dict_get key d with
  | Some v => v
  | None => default
  end.

(** Truth value of an object, as [if x:] and [not x] take it. *)
Definition truthy (v : value) : bool :=
  match v with
  | VNone => false
  | VBool b => b
  | VInt n => negb (Z.eqb n 0)
  | VStr s => negb (String.eqb s "")
  | VList items => match items with [] => false | _ => true end
  | VDict entries => match entries with [] => false | _ => true end
  end.

(** Python's [==] on JSON data: [True == 1], lists compare element by
    element, dictionaries compare by key whatever the insertion order. *)
Fixpoint py_eq (x y : value) {struct x} : bool :=
  match x, y with
  | VNone, VNone => true
  | VBool a, VBool b => bool_decide (a = b)
  | VBool a, VInt n => Z.eqb (if a then 1 else 0) n
  | VInt n, VBool b => Z.eqb n (if b then 1 else 0)
  | VInt n, VInt m => Z.eqb n m
  | VStr s, VStr t => bool_decide (s = t)
  | VList xs, VList ys =>
      (fix go (xs ys : list value) {struct xs} : bool :=
         match xs, ys with
         | [], [] => true
         | a :: xs', b :: ys' => py_eq a b && go xs' ys'
         | _, _ => false
         end) xs ys
  | VDict d, VDict e =>
      Nat.eqb (length d) (length e) &&
      (fix go (d : dict) : bool :=
         match d with
         | [] => true
         | (k, v) :: d' =>
             match dict_get k e with
             | Some w => py_eq v w && go d'
             | None => false
             end
         end) d
  | _, _ => false
  end.

(** Equality of [json.dumps(x, sort_keys=True)] and
    [json.dumps(y, sort_keys=True)]: the same data up to the order of the
    keys; [true] and [1] are different texts. *)
Fixpoint same_dump (x y : value) {struct x} : bool :=
  match x, y with
  | VNone, VNone => true
  | VBool a, VBool b => bool_decide (a = b)
  | VInt n, VInt m => Z.eqb n m
  | VStr s, VStr t => bool_decide (s = t)
  | VList xs, VList ys =>
      (fix go (xs ys : list value) {struct xs} : bool :=
         match xs, ys with
         | [], [] => true
         | a :: xs', b :: ys' => same_dump a b && go xs' ys'
         | _, _ => false
         end) xs ys
  | VDict d, VDict e =>
      Nat.eqb (length d) (length e) &&
      (fix go (d : dict) : bool :=
         match d with
         | [] => true
         | (k, v) :: d' =>
             match dict_get k e with
             | Some w => same_dump v w && go d'
             | None => false
             end
         end) d
  | _, _ => false
  end.

(** [item in l] for a list [l]. *)
Definition py_in (item : value) (l : list value) : bool :=
  existsb (py_eq item) l.

(** A value the interpreter can hold: no dictionary has a key twice. *)
Fixpoint wf_value (v : value) : bool :=
  match v with
  | VList items =>
      (fix all (l : list value) : bool :=
         match l with
         | [] => true
         | x :: l' => wf_value x && all l'
         end) items
  | VDict entries =>
      bool_decide (NoDup (keys entries)) &&
      (fix all (l : dict) : bool :=
         match l with
         | [] => true
         | (_, x) :: l' => wf_value x && all l'
         end) entries
  | _ => true
  end.

Definition wf_dict (d : dict) : bool := wf_value (VDict d).

Lemma wf_list_iff items :
  wf_value (VList items) = true ↔ Forall (λ x, wf_value x = true) items.
Proof.
  simpl. induction items as [|x l IH].
  - split; [constructor | done].
  - rewrite andb_true_iff, IH, Forall_cons. done.
Qed.

Lemma wf_dict_iff d :
  wf_dict d = true ↔
  NoDup (keys d) ∧ Forall (λ kv, wf_value kv.2 = true) d.
Proof.
  unfold wf_dict. simpl. rewrite andb_true_iff, bool_decide_eq_true.
  apply and_iff_compat_l.
  induction d as [|[k x] l IH].
  - split; [constructor | done].
  - rewrite andb_true_iff, IH, Forall_cons. done.
Qed.

(** *** Dictionary access *)

Lemma dict_get_set_eq key v d : dict_get key (dict_set key v d) = Some v.
Proof.
  induction d as [|[k w] d IH]; simpl.
  - by rewrite decide_True.
  - destruct (decide (k = key)) as [->|Hne]; simpl.
    + by rewrite decide_True.
    + by rewrite decide_False.
Qed.

Lemma dict_get_set_ne key key' v d :
  key ≠ key' → dict_get key' (dict_set key v d) = dict_get key' d.
Proof.
  intros Hne. induction d as [|[k w] d IH]; simpl.
  - by rewrite decide_False.
  - destruct (decide (k = key)) as [->|Hk]; simpl.
    + by rewrite !decide_False.
    + destruct (decide (k = key')); [done | apply IH].
Qed.

Lemma dict_set_same key v d : dict_get key d = Some v → dict_set key v d = d.
Proof.
  induction d as [|[k w] d IH]; simpl; [done |].
  destruct (decide (k = key)) as [->|Hk]; intros H.
  - by inversion H.
  - by rewrite IH.
Qed.

Lemma dict_get_None key d : dict_get key d = None ↔ key ∉ keys d.
Proof.
  unfold keys. induction d as [|[k w] d IH]; simpl.
  - split; [intros _; apply not_elem_of_nil | done].
  - rewrite not_elem_of_cons. destruct (decide (k = key)) as [->|Hk].
    + split; [done | intros [? _]; done].
    + rewrite IH. split; [intros ?; split; [congruence | done] | tauto].
Qed.

Lemma dict_get_Some_elem key v d : dict_get key d = Some v → (key, v) ∈ d.
Proof.
  induction d as [|[k w] d IH]; simpl; [done |].
  destruct (decide (k = key)) as [->|Hk]; intros H.
  - inversion H. apply elem_of_cons. by left.
  - apply elem_of_cons. right. by apply IH.
Qed.

Lemma dict_get_elem key v d :
  NoDup (keys d) → (key, v) ∈ d → dict_get key d = Some v.
Proof.
  unfold keys. induction d as [|[k w] d IH]; simpl; intros Hnd Hin.
  - by apply elem_of_nil in Hin.
  - apply NoDup_cons in Hnd as [Hk Hnd].
    apply elem_of_cons in Hin as [Heq|Hin].
    + inversion Heq; subst. by rewrite decide_True.
    + destruct (decide (k = key)) as [->|Hne]; [|by apply IH].
      exfalso. apply Hk. apply list_elem_of_fmap. by exists (key, v).
Qed.

Lemma keys_dict_set key v d :
  keys (dict_set key v d) =
  if dict_has key d then keys d else keys d ++ [key].
Proof.
  unfold keys, dict_has. induction d as [|[k w] d IH]; csimpl; [done |].
  destruct (decide (k = key)) as [->|Hk]; csimpl; [done |].
  rewrite IH. by destruct (dict_get key d).
Qed.

(** *** Equality is reflexive on well-formed values *)

Lemma py_eq_dict d e :
  py_eq (VDict d) (VDict e) =
  Nat.eqb (length d) (length e) &&
  forallb (λ kv, match dict_get kv.1 e with
                 | Some w => py_eq kv.2 w
                 | None => false
                 end) d.
Proof.
  simpl. f_equal. induction d as [|[k x] l IH]; simpl; [done |].
  destruct (dict_get k e); [by rewrite IH | done].
Qed.

Lemma py_eq_list_same items :
  Forall (λ x, py_eq x x = true) items → py_eq (VList items) (VList items) = true.
Proof.
  simpl. induction 1 as [|x l Hx _ IH]; [done |].
  by rewrite Hx, IH.
Qed.

Lemma py_eq_refl v : wf_value v = true → py_eq v v = true.
Proof.
  induction v as [| b | n | s | items IH | entries IH]
    using value_ind; intros Hwf.
  - done.
  - by apply bool_decide_eq_true.
  - apply Z.eqb_refl.
  - by apply bool_decide_eq_true.
  - apply wf_list_iff in Hwf. apply py_eq_list_same.
    rewrite Forall_forall in *. auto.
  - apply wf_dict_iff in Hwf as [Hnd Hwf].
    rewrite py_eq_dict, Nat.eqb_refl. simpl.
    apply forallb_forall. intros [k x] Hin. simpl.
    apply list_elem_of_In in Hin.
    rewrite (dict_get_elem k x entries Hnd Hin).
    rewrite Forall_forall in IH. rewrite Forall_forall in Hwf.
    apply (IH _ Hin (Hwf _ Hin)).
Qed.

Lemma py_in_app item l1 l2 : py_in item (l1 ++ l2) = py_in item l1 || py_in item l2.
Proof. unfold py_in. apply existsb_app. Qed.

Lemma py_in_self item l : wf_value item = true → py_in item (l ++ [item]) = true.
Proof.
  intros Hwf. rewrite py_in_app. simpl. rewrite (py_eq_refl _ Hwf).
  simpl. by rewrite orb_true_r.
Qed.

End Json.

(* ================================================================== *)
(** ** The merge engine ([utils/file_manager.py], [deep_merge_dict]) *)
(* ================================================================== *)

Module Merge.
Import Json.

(** The inner loop on two lists:
    [for item in value: if item not in existing_items: existing_items.append(item)]. *)
Definition extend_unique (existing_items new_items : list value) : list value :=
  foldl (λ acc item, if py_in item acc then acc else acc ++ [item])
        existing_items new_items.

(** What the loop body of [deep_merge_dict] stores under [key]: [current]
    is [result[key]] when [key in result] and [None] otherwise, [upd] is
    the value of the update.  Two dictionaries are merged by the loop of
    [deep_merge_dict] itself (the recursive call), two lists are extended,
    anything else is overwritten. *)
Fixpoint merged_value (upd : value) (current : option value) {struct upd} : value :=
  match current, upd with
  | Some (VDict base), VDict updates =>
      VDict
        ((fix loop (us : dict) (result : dict) {struct us} : dict :=
            match us with
            | [] => result
            | (key, v) :: us' =>
                loop us' (dict_set key (merged_value v (dict_get key result)) result)
            end) updates base)
  | Some (VList existing_items), VList new_items =>
      VList (extend_unique existing_items new_items)
  | _, _ => upd
  end.

(** One round of [for key, value in updates.items()]. *)
Definition merge_entry (result : dict) (kv : string * value) : dict :=
  dict_set kv.1 (merged_value kv.2 (dict_get kv.1 result)) result.

(** [deep_merge_dict(base, updates)]: the returned dictionary.  [result]
    starts as a copy of [base]. *)
Definition deep_merge_dict (base updates : dict) : dict :=
  foldl merge_entry base updates.

(** The claim's wording for lists: the elements of the update's list that
    are not already present, in the update's order.  [present] is the
    sequence built so far. *)
Fixpoint fresh_items (present new_items : list value) : list value :=
  match new_items with
  | [] => []
  | x :: rest =>
      if py_in x present then fresh_items present rest
      else x :: fresh_items (present ++ [x]) rest
  end.

(** No two items of the list are equal under [==]. *)
Fixpoint py_distinct (l : list value) : Prop :=
  match l with
  | [] => True
  | x :: rest => (∀ y, y ∈ rest → py_eq y x = false) ∧ py_distinct rest
  end.

(** *** Unfolding equations *)

Lemma deep_merge_dict_cons base key v updates :
  deep_merge_dict base ((key, v) :: updates) =
  deep_merge_dict (dict_set key (merged_value v (dict_get key base)) base) updates.
Proof. reflexivity. Qed.

Lemma merged_value_dicts base updates :
  merged_value (VDict updates) (Some (VDict base)) =
  VDict (deep_merge_dict base updates).
Proof.
  simpl. f_equal. revert base.
  induction updates as [|[k v] us IH]; intros base; [done |].
  rewrite deep_merge_dict_cons. apply IH.
Qed.

Lemma merged_value_lists existing_items new_items :
  merged_value (VList new_items) (Some (VList existing_items)) =
  VList (extend_unique existing_items new_items).
Proof. reflexivity. Qed.

Lemma merged_value_new upd : merged_value upd None = upd.
Proof. by destruct upd. Qed.

Lemma merged_value_overwrite upd cur :
  is_dict cur && is_dict upd = false →
  is_list cur && is_list upd = false →
  merged_value upd (Some cur) = upd.
Proof. destruct cur, upd; simpl; done. Qed.

(** *** Lists *)

Lemma extend_unique_fresh existing_items new_items :
  extend_unique existing_items new_items =
  existing_items ++ fresh_items existing_items new_items.
Proof.
  unfold extend_unique. revert existing_items.
  induction new_items as [|x rest IH]; intros acc; simpl.
  - by rewrite app_nil_r.
  - destruct (py_in x acc); rewrite IH; [done |].
    by rewrite <- app_assoc.
Qed.

Lemma fresh_items_sublist present new_items :
  sublist (fresh_items present new_items) new_items.
Proof.
  revert present. induction new_items as [|x rest IH]; intros present; simpl.
  - constructor.
  - destruct (py_in x present).
    + apply sublist_cons, IH.
    + apply sublist_skip, IH.
Qed.

Lemma fresh_items_absent present new_items x :
  x ∈ fresh_items present new_items → py_in x present = false.
Proof.
  revert present. induction new_items as [|y rest IH]; intros present; simpl.
  - intros H. by apply elem_of_nil in H.
  - destruct (py_in y present) eqn:Hy; [apply IH |].
    intros [->|Hin]%elem_of_cons; [done |].
    apply IH in Hin. rewrite py_in_app in Hin.
    by apply orb_false_iff in Hin as [? _].
Qed.

Lemma fresh_items_cover present new_items x :
  wf_value (VList new_items) = true →
  x ∈ new_items → py_in x (present ++ fresh_items present new_items) = true.
Proof.
  rewrite wf_list_iff. revert present.
  induction new_items as [|y rest IH]; intros present Hwf Hin.
  - by apply elem_of_nil in Hin.
  - apply Forall_cons in Hwf as [Hy Hwf]. simpl.
    destruct (py_in y present) eqn:Hpy.
    + apply elem_of_cons in Hin as [->|Hin]; [|by apply IH].
      by rewrite py_in_app, Hpy.
    + replace (present ++ y :: fresh_items (present ++ [y]) rest)
        with ((present ++ [y]) ++ fresh_items (present ++ [y]) rest)
        by (by rewrite <- app_assoc).
      apply elem_of_cons in Hin as [->|Hin]; [|by apply IH].
      by rewrite py_in_app, py_in_self.
Qed.

Lemma fresh_items_filter present existing_items new_items :
  (∀ y, y ∈ new_items → py_in y present = py_in y existing_items) →
  py_distinct new_items →
  fresh_items present new_items =
  List.filter (λ y, negb (py_in y existing_items)) new_items.
Proof.
  revert present. induction new_items as [|x rest IH]; intros present Hsame Hd.
  - done.
  - destruct Hd as [Hx Hd]. simpl.
    rewrite <- (Hsame x) by (apply elem_of_cons; by left).
    destruct (py_in x present) eqn:Hpx; simpl.
    + apply IH; [|done]. intros y Hy. apply Hsame, elem_of_cons. by right.
    + f_equal. apply IH; [|done]. intros y Hy.
      rewrite py_in_app. simpl. rewrite (Hx y Hy). simpl.
      rewrite orb_false_r. apply Hsame, elem_of_cons. by right.
Qed.

Lemma fresh_items_none present new_items :
  (∀ x, x ∈ new_items → py_in x present = true) →
  fresh_items present new_items = [].
Proof.
  induction new_items as [|x rest IH]; intros Hall; [done |]. simpl.
  rewrite (Hall x) by (apply elem_of_cons; by left).
  apply IH. intros y Hy. apply Hall, elem_of_cons. by right.
Qed.

Lemma py_in_elem x l : wf_value x = true → x ∈ l → py_in x l = true.
Proof.
  intros Hwf Hin. apply existsb_exists. exists x.
  split; [by apply list_elem_of_In | by apply py_eq_refl].
Qed.

Lemma extend_unique_absorb existing_items new_items :
  (∀ x, x ∈ new_items → py_in x existing_items = true) →
  extend_unique existing_items new_items = existing_items.
Proof.
  intros Hall. rewrite extend_unique_fresh, fresh_items_none by done.
  apply app_nil_r.
Qed.

(** *** Dictionaries *)

Lemma deep_merge_dict_get_other key base updates :
  key ∉ keys updates →
  dict_get key (deep_merge_dict base updates) = dict_get key base.
Proof.
  revert base. induction updates as [|[k v] us IH]; intros base Hk; [done |].
  unfold keys in *. csimpl in Hk. apply not_elem_of_cons in Hk as [Hne Hk].
  rewrite deep_merge_dict_cons, IH by done.
  apply dict_get_set_ne. congruence.
Qed.

Lemma deep_merge_dict_get key v base updates :
  NoDup (keys updates) → (key, v) ∈ updates →
  dict_get key (deep_merge_dict base updates) =
  Some (merged_value v (dict_get key base)).
Proof.
  revert base. induction updates as [|[k w] us IH]; intros base Hnd Hin.
  - by apply elem_of_nil in Hin.
  - unfold keys in *. csimpl in Hnd. apply NoDup_cons in Hnd as [Hk Hnd].
    rewrite deep_merge_dict_cons.
    apply elem_of_cons in Hin as [Heq|Hin].
    + inversion Heq; subst.
      rewrite deep_merge_dict_get_other by done. apply dict_get_set_eq.
    + rewrite IH by done. rewrite dict_get_set_ne; [done |].
      intros ->. apply Hk. apply list_elem_of_fmap. by exists (key, v).
Qed.

(** A second pass of the loop over entries that are already merged in
    changes nothing. *)
Lemma deep_merge_dict_fixed result updates :
  (∀ k v, (k, v) ∈ updates →
          ∃ w, dict_get k result = Some w ∧ merged_value v (Some w) = w) →
  deep_merge_dict result updates = result.
Proof.
  induction updates as [|[k v] us IH]; intros Hall; [done |].
  rewrite deep_merge_dict_cons.
  destruct (Hall k v) as (w & Hget & Hw); [apply elem_of_cons; by left |].
  rewrite Hget, Hw, (dict_set_same _ _ _ Hget).
  apply IH. intros k' v' Hin. apply Hall, elem_of_cons. by right.
Qed.

Lemma merged_value_idem upd :
  wf_value upd = true →
  ∀ cur, merged_value upd (Some (merged_value upd cur)) = merged_value upd cur.
Proof.
  induction upd as [| b | n | s | items IH | entries IH]
    using value_ind; intros Hwf cur;
    try (by destruct cur as [[]|]).
  - assert (Hself : merged_value (VList items) (Some (VList items)) = VList items).
    { rewrite merged_value_lists, extend_unique_absorb; [done |].
      intros x Hx. apply py_in_elem; [|done].
      apply wf_list_iff in Hwf. rewrite Forall_forall in Hwf. auto. }
    destruct cur as [[| | | | existing |]|]; try exact Hself.
    rewrite !merged_value_lists. f_equal.
    apply extend_unique_absorb. intros x Hx.
    rewrite extend_unique_fresh. by apply fresh_items_cover.
  - pose proof Hwf as Hwf'. apply wf_dict_iff in Hwf' as [Hnd Hall].
    rewrite Forall_forall in IH. rewrite Forall_forall in Hall.
    assert (Hself : merged_value (VDict entries) (Some (VDict entries)) = VDict entries).
    { rewrite merged_value_dicts. f_equal. apply deep_merge_dict_fixed.
      intros k v Hin. exists v. split; [by apply dict_get_elem |].
      specialize (IH _ Hin (Hall _ Hin) None).
      by rewrite merged_value_new in IH. }
    destruct cur as [[| | | | | base]|]; try exact Hself.
    rewrite !merged_value_dicts. f_equal. apply deep_merge_dict_fixed.
    intros k v Hin. exists (merged_value v (dict_get k base)).
    split; [by apply deep_merge_dict_get |].
    apply (IH _ Hin (Hall _ Hin)).
Qed.

(** C3. Merging is idempotent: for every current document [A] and every
    update [B] (a dictionary as the interpreter holds it, no key twice at
    any depth), merging [B] into the result of merging [B] into [A] gives
    that result again:
    [deep_merge_dict (deep_merge_dict A B) B = deep_merge_dict A B]. *)
Theorem deep_merge_dict_idempotent (A B : dict) :
  wf_dict B = true →
  deep_merge_dict (deep_merge_dict A B) B = deep_merge_dict A B.
Proof.
  intros Hwf.
  pose proof (merged_value_idem (VDict B) Hwf (Some (VDict A))) as H.
  rewrite !merged_value_dicts in H. congruence.
Qed.

Lemma deep_merge_dict_idempotent_witness :
  let A := [("features", VList [VStr "login"]);
            ("theme", VDict [("colors", VDict [])])] in
  let B := [("features", VList [VStr "signup"; VStr "login"; VStr "signup"]);
            ("theme", VDict [("colors", VDict [("primary", VStr "blue")])]);
            ("count", VInt 3)] in
  wf_dict B = true ∧
  deep_merge_dict (deep_merge_dict A B) B = deep_merge_dict A B.
Proof.
  intros A B.
  assert (Hwf : wf_dict B = true) by (vm_compute; reflexivity).
  split; [exact Hwf | exact (deep_merge_dict_idempotent A B Hwf)].
Defined.

(** *** What else the merge keeps *)

Lemma dict_set_new key v d :
  dict_get key d = None → dict_set key v d = d ++ [(key, v)].
Proof.
  induction d as [|[k w] d IH]; simpl; [done |].
  destruct (decide (k = key)); [done |]. intros H. by rewrite IH.
Qed.

Lemma dict_set_NoDup key v d : NoDup (keys d) → NoDup (keys (dict_set key v d)).
Proof.
  intros Hnd. rewrite keys_dict_set. unfold dict_has.
  destruct (dict_get key d) eqn:Hget; [done |].
  apply dict_get_None in Hget.
  apply NoDup_app. split; [done |]. split.
  - intros x Hx [->|[]%elem_of_nil]%elem_of_cons. done.
  - apply NoDup_singleton.
Qed.

Lemma dict_set_Forall (P : value → Prop) key v d :
  P v → Forall (λ kv, P kv.2) d → Forall (λ kv, P kv.2) (dict_set key v d).
Proof.
  intros Hv. induction 1 as [|[k w] d Hw Hd IH]; simpl.
  - by repeat constructor.
  - destruct (decide (k = key)); constructor; done.
Qed.

Lemma dict_get_Forall (P : value → Prop) key v d :
  Forall (λ kv, P kv.2) d → dict_get key d = Some v → P v.
Proof.
  intros Hall Hget. apply dict_get_Some_elem in Hget.
  rewrite Forall_forall in Hall. apply (Hall _ Hget).
Qed.

Lemma extend_unique_Forall (P : value → Prop) existing_items new_items :
  Forall P existing_items → Forall P new_items →
  Forall P (extend_unique existing_items new_items).
Proof.
  unfold extend_unique. intros He Hn. revert existing_items He.
  induction Hn as [|x rest Hx Hrest IH]; intros acc Hacc; simpl; [done |].
  apply IH. destruct (py_in x acc); [done |].
  apply Forall_app. split; [done | by constructor].
Qed.

Lemma deep_merge_dict_wf_fold updates :
  Forall (λ kv : string * value,
            ∀ cur, (∀ c, cur = Some c → wf_value c = true) →
                   wf_value (merged_value kv.2 cur) = true) updates →
  ∀ base, wf_dict base = true → wf_dict (deep_merge_dict base updates) = true.
Proof.
  induction 1 as [|[k v] us Hv _ IH]; intros base Hbase; [done |].
  rewrite deep_merge_dict_cons. apply IH.
  apply wf_dict_iff in Hbase as [Hnd Hall]. apply wf_dict_iff. split.
  - by apply dict_set_NoDup.
  - apply (dict_set_Forall (λ x, wf_value x = true)); [|done]. apply Hv.
    intros c Hc. by apply (dict_get_Forall (λ x, wf_value x = true) k c base).
Qed.

Lemma merged_value_wf upd :
  wf_value upd = true →
  ∀ cur, (∀ c, cur = Some c → wf_value c = true) →
         wf_value (merged_value upd cur) = true.
Proof.
  induction upd as [| b | n | s | items IH | entries IH]
    using value_ind; intros Hwf cur Hcur;
    try (by destruct cur as [[]|]).
  - destruct cur as [[| | | | existing |]|]; try exact Hwf.
    rewrite merged_value_lists. apply wf_list_iff.
    apply extend_unique_Forall.
    + apply wf_list_iff. by apply Hcur.
    + by apply wf_list_iff.
  - destruct cur as [[| | | | | base]|]; try exact Hwf.
    rewrite merged_value_dicts.
    apply deep_merge_dict_wf_fold; [|by apply Hcur].
    apply wf_dict_iff in Hwf as [_ Hvalues].
    rewrite Forall_forall in *. intros kv Hin. by apply IH, Hvalues.
Qed.

(** The merge of two dictionaries the interpreter can hold is one too: no
    key appears twice in the result, at any depth. *)
Theorem deep_merge_dict_wf (A B : dict) :
  wf_dict A = true → wf_dict B = true →
  wf_dict (deep_merge_dict A B) = true.
Proof.
  intros HA HB.
  pose proof (merged_value_wf (VDict B) HB (Some (VDict A))) as H.
  rewrite merged_value_dicts in H. apply H. by intros c [= <-].
Qed.

Lemma deep_merge_dict_wf_witness :
  let A := [("features", VList [VStr "login"]);
            ("theme", VDict [("colors", VDict [])])] in
  let B := [("theme", VDict [("colors", VDict [("primary", VStr "blue")]);
                             ("fonts", VDict [])]);
            ("features", VList [VStr "signup"])] in
  wf_dict (deep_merge_dict A B) = true.
Proof.
  intros A B. apply deep_merge_dict_wf; vm_compute; reflexivity.
Defined.

Lemma filter_agree (P Q : string → Prop) `{∀ x, Decision (P x)} `{∀ x, Decision (Q x)}
    (l : list string) :
  (∀ x, x ∈ l → (P x ↔ Q x)) → filter P l = filter Q l.
Proof.
  induction l as [|x l IH]; intros Hall; [done |].
  rewrite !filter_cons.
  rewrite IH by (intros y Hy; apply Hall, elem_of_cons; by right).
  assert (Hx : P x ↔ Q x) by (apply Hall, elem_of_cons; by left).
  destruct (decide (P x)), (decide (Q x)); tauto.
Qed.

(** The keys of the result, in order: the keys of the base where they
    were, then the keys only the update has, in the update's order.  No key
    of the base is dropped or moved. *)
Theorem deep_merge_dict_keys (A B : dict) :
  NoDup (keys B) →
  keys (deep_merge_dict A B) =
  keys A ++ filter (λ k, k ∉ keys A) (keys B).
Proof.
  revert A. induction B as [|[k v] B IH]; intros A Hnd.
  - simpl. by rewrite app_nil_r.
  - unfold keys in Hnd. csimpl in Hnd. apply NoDup_cons in Hnd as [Hk Hnd].
    rewrite deep_merge_dict_cons, IH, keys_dict_set by done.
    unfold dict_has. unfold keys at 5. csimpl.
    destruct (dict_get k A) eqn:Hget.
    + assert (Hin : k ∈ keys A).
      { apply dict_get_Some_elem in Hget. apply list_elem_of_fmap. by exists (k, v0). }
      rewrite filter_cons_False by (intros Hout; by apply Hout). done.
    + apply dict_get_None in Hget.
      rewrite filter_cons_True by done. rewrite <- app_assoc. simpl. do 2 f_equal.
      apply filter_agree. intros x Hx.
      rewrite not_elem_of_app, not_elem_of_cons.
      split; [tauto |]. intros Hout. repeat split; [done | | apply not_elem_of_nil].
      intros ->. by apply Hk.
Qed.

Lemma deep_merge_dict_keys_witness :
  keys (deep_merge_dict [("a", VInt 1); ("b", VInt 2)]
                        [("c", VInt 3); ("a", VInt 4)]) =
  ["a"; "b"] ++ filter (λ k, k ∉ ["a"; "b"]) ["c"; "a"].
Proof.
  apply (deep_merge_dict_keys [("a", VInt 1); ("b", VInt 2)]
                              [("c", VInt 3); ("a", VInt 4)]).
  compute_done.
Defined.

Lemma deep_merge_dict_append base updates :
  NoDup (keys (base ++ updates)) →
  deep_merge_dict base updates = base ++ updates.
Proof.
  revert base. induction updates as [|[k v] us IH]; intros base Hnd.
  - by rewrite app_nil_r.
  - rewrite deep_merge_dict_cons.
    assert (Hget : dict_get k base = None).
    { apply dict_get_None. unfold keys in *. rewrite fmap_app in Hnd.
      apply NoDup_app in Hnd as (_ & Hdisj & _). intros Hin.
      apply (Hdisj k Hin). csimpl. apply elem_of_cons. by left. }
    rewrite Hget, merged_value_new, dict_set_new by done.
    rewrite IH; [by rewrite <- app_assoc |].
    by rewrite <- app_assoc.
Qed.

Lemma py_distinct_snoc l item :
  py_distinct l → py_in item l = false → py_distinct (l ++ [item]).
Proof.
  induction l as [|x l IH]; simpl.
  { intros _ _. split; [|done]. intros y Hy. by apply elem_of_nil in Hy. }
  intros [Hx Hl] Hin. apply orb_false_iff in Hin as [Hix Hin]. split.
  - intros y [Hy|Hy]%elem_of_app; [by apply Hx |].
    apply list_elem_of_singleton in Hy. by subst y.
  - by apply IH.
Qed.

(** The inner loop only appends: for every list it starts from, that list
    is a prefix of the result.  And a list without two equal items still
    has none after the loop has extended it. *)
Theorem extend_unique_distinct existing_items new_items :
  existing_items `prefix_of` extend_unique existing_items new_items ∧
  (py_distinct existing_items →
   py_distinct (extend_unique existing_items new_items)).
Proof.
  split.
  - rewrite extend_unique_fresh. by eexists.
  - unfold extend_unique. revert existing_items.
    induction new_items as [|x rest IH]; intros acc Hacc; simpl; [done |].
    apply IH. destruct (py_in x acc) eqn:Hin; [exact Hacc |].
    by apply py_distinct_snoc.
Qed.

Lemma extend_unique_distinct_witness :
  [VInt 1; VInt 1] `prefix_of` extend_unique [VInt 1; VInt 1] [VStr "b"; VStr "b"] ∧
  py_distinct (extend_unique [VInt 1; VStr "a"] [VBool true; VStr "b"; VStr "b"]).
Proof.
  split.
  - apply (extend_unique_distinct [VInt 1; VInt 1] [VStr "b"; VStr "b"]).
  - apply (extend_unique_distinct [VInt 1; VStr "a"] [VBool true; VStr "b"; VStr "b"]).
    simpl.
    repeat split; intros y Hy;
      repeat (apply elem_of_cons in Hy as [->|Hy]; [reflexivity |]);
      by apply elem_of_nil in Hy.
Defined.

End Merge.

(* ================================================================== *)
(** ** [deep_merge_dict] on the interpreter's objects *)
(* ================================================================== *)

(** Lists and dictionaries are objects reached by reference: [base.copy()]
    copies the top level of one dictionary and shares everything below it,
    and [append] changes a list in place.  This module runs the same
    function on a store of objects, to see what a call does to its
    arguments.  [update_json_file] passes arguments that share no object
    (a fresh parse of the file, and the payload) and drops the parse after
    the call; the value returned is then the one [Merge.deep_merge_dict]
    describes, as the runs below show on their inputs. *)
Module Objects.
Import Json.

Definition ref : Type := nat.

Inductive pyval : Type :=
| PNone
| PBool (b : bool)
| PInt (n : Z)
| PStr (s : string)
| PRef (r : ref).

Inductive pyobj : Type :=
| ODict (entries : list (string * pyval))
| OList (items : list pyval).

(** The store: the object at address [r] is the [r]-th one; a new object
    takes the next address. *)
Abbreviation heap := (list pyobj).

Definition alloc (o : pyobj) (h : heap) : ref * heap := (length h, h ++ [o]).

Fixpoint entry_get (key : string) (d : list (string * pyval)) : option pyval :=
  match d with
  | [] => None
  | (k, v) :: d' => if decide (k = key) then Some v else entry_get key d'
  end.

Fixpoint entry_set (key : string) (v : pyval) (d : list (string * pyval))
    : list (string * pyval) :=
  match d with
  | [] => [(key, v)]
  | (k, w) :: d' =>
      if decide (k = key) then (k, v) :: d' else (k, w) :: entry_set key v d'
  end.

(** The JSON data under a value.  [fuel] bounds the depth. *)
Fixpoint reify (fuel : nat) (h : heap) (v : pyval) {struct fuel} : option value :=
  match v with
  | PNone => Some VNone
  | PBool b => Some (VBool b)
  | PInt n => Some (VInt n)
  | PStr s => Some (VStr s)
  | PRef r =>
      match fuel with
      | O => None
      | S fuel' =>
          match h !! r with
          | Some (OList items) => VList <$> mapM (reify fuel' h) items
          | Some (ODict entries) =>
              VDict <$> mapM (λ kv : string * pyval,
                                x ← reify fuel' h kv.2; Some (kv.1, x)) entries
          | None => None
          end
      end
  end.

(** [item not in existing_items], then [existing_items.append(item)], on
    the list object at [target]. *)
Definition append_if_absent (fuel : nat) (target : ref) (item : pyval) (h : heap)
    : option heap :=
  match h !! target with
  | Some (OList existing_items) =>
      x ← reify fuel h item;
      xs ← mapM (reify fuel h) existing_items;
      Some (if py_in x xs then h
            else <[target := OList (existing_items ++ [item])]> h)
  | _ => None
  end.

(** [result[key] = v] on the dictionary object at [result]. *)
Definition store_entry (result : ref) (key : string) (v : pyval) (h : heap)
    : option heap :=
  match h !! result with
  | Some (ODict entries) => Some (<[result := ODict (entry_set key v entries)]> h)
  | _ => None
  end.

(** [deep_merge_dict(base, updates)] on references: the reference of the
    returned dictionary and the store after the call.  [None] when [fuel]
    runs out or a reference is dangling. *)
Fixpoint deep_merge_dict (fuel : nat) (base updates : ref) (h : heap)
    {struct fuel} : option (ref * heap) :=
  match fuel with
  | O => None
  | S fuel' =>
      match h !! base, h !! updates with
      | Some (ODict base_entries), Some (ODict update_entries) =>
          (* result = base.copy() *)
          let '(result, h0) := alloc (ODict base_entries) h in
          h' ← foldl
                 (λ (acc : option heap) (kv : string * pyval),
                    h1 ← acc;
                    let '(key, v) := kv in
                    match h1 !! result with
                    | Some (ODict entries) =>
                        match entry_get key entries, v with
                        | Some (PRef current), PRef update =>
                            match h1 !! current, h1 !! update with
                            | Some (ODict _), Some (ODict _) =>
                                merged ← deep_merge_dict fuel' current update h1;
                                store_entry result key (PRef merged.1) merged.2
                            | Some (OList _), Some (OList new_items) =>
                                (* existing_items = result[key] is the list of [base] *)
                                h2 ← foldl (λ acc item,
                                              h2 ← acc;
                                              append_if_absent fuel' current item h2)
                                           (Some h1) new_items;
                                store_entry result key (PRef current) h2
                            | _, _ => store_entry result key v h1
                            end
                        | _, _ => store_entry result key v h1
                        end
                    | _ => None
                    end)
                 (Some h0) update_entries;
          Some (result, h')
      | _, _ => None
      end
  end.

(** Two separate arguments, [A = {"k": [1]}] at address 1 and
    [B = {"k": [2]}] at address 3. *)
Definition two_lists : heap :=
  [OList [PInt 1]; ODict [("k", PRef 0)];
   OList [PInt 2]; ODict [("k", PRef 2)]].

(** A nested document and an update that repeats an item. *)
Definition nested_lists : heap :=
  [OList [PStr "a"];
   ODict [("tags", PRef 0)];
   ODict [("meta", PRef 1); ("n", PInt 1)];
   OList [PStr "b"; PStr "a"; PStr "b"];
   ODict [("tags", PRef 3); ("extra", PBool true)];
   ODict [("meta", PRef 4); ("n", PInt 2)]].

(** On that input the returned object holds the value of the merge engine,
    and merging the same update into the returned object again gives the
    same value. *)
Lemma deep_merge_dict_agrees_on_nested :
  ∃ result h' again h'',
    deep_merge_dict 4 2 5 nested_lists = Some (result, h') ∧
    deep_merge_dict 4 result 5 h' = Some (again, h'') ∧
    reify 4 h' (PRef result) =
      Some (VDict (Merge.deep_merge_dict
                     [("meta", VDict [("tags", VList [VStr "a"])]); ("n", VInt 1)]
                     [("meta", VDict [("tags", VList [VStr "b"; VStr "a"; VStr "b"]);
                                      ("extra", VBool true)]);
                      ("n", VInt 2)])) ∧
    reify 4 h'' (PRef again) = reify 4 h' (PRef result).
Proof.
  eexists _, _, _, _.
  split; [vm_compute; reflexivity |].
  split; [vm_compute; reflexivity |].
  vm_compute. split; reflexivity.
Qed.

(** C6 fails on the code: called on [A = {"k": [1]}] and [B = {"k": [2]}],
    [deep_merge_dict] returns a new dictionary whose value is the merge, and
    leaves [B] as it was, but the list inside [A] has grown: read again after
    the call, [A] is [{"k": [1, 2]}]. *)
Lemma deep_merge_dict_appends_to_base_list :
  ∃ result h',
    deep_merge_dict 3 1 3 two_lists = Some (result, h') ∧
    result ≠ 1 ∧
    reify 3 two_lists (PRef 1) = Some (VDict [("k", VList [VInt 1])]) ∧
    reify 3 h' (PRef 1) = Some (VDict [("k", VList [VInt 1; VInt 2])]) ∧
    reify 3 h' (PRef 3) = reify 3 two_lists (PRef 3) ∧
    reify 3 h' (PRef result) =
      Some (VDict (Merge.deep_merge_dict [("k", VList [VInt 1])]
                                         [("k", VList [VInt 2])])).
Proof.
  eexists _, _. split; [vm_compute; reflexivity |].
  vm_compute. repeat split; try reflexivity. discriminate.
Qed.

End Objects.

(* ================================================================== *)
(** ** The document store ([utils/file_manager.py]) *)
(* ================================================================== *)

Module FileManager.
Import Json Merge.

(** Exceptions by class, with their message.  [OtherError] stands for the
    classes no caller tells apart ([TypeError], [AttributeError],
    [KeyError]).  Messages are kept short
    where the source interpolates a type or a list. *)
Inductive exn : Type :=
| ValueError (msg : string)
| FileNotFoundError (msg : string)
| OtherError (msg : string).

Inductive outcome (A : Type) : Type :=
| Returned (a : A)
| Raised (e : exn).
Arguments Returned {A} a.
Arguments Raised {A} e.

Definition exn_message (e : exn) : string :=
  match e with
  | ValueError msg | FileNotFoundError msg | OtherError msg => msg
  end.

Definition is_returned {A} (o : outcome A) : bool :=
  match o with
  | Returned _ => true
  | Raised _ => false
  end.

(** A file on disk.  [FJson v] is a text that [json.loads] parses to [v],
    which is what [json.dump] of [v] leaves behind.  [FText s] is any other
    text, by its characters: the text of a markdown file as it was passed
    to [write], or an empty or corrupted [.js] file.  The line separator of
    the system is the line feed, so that a write in text mode stores the
    characters it is given.  Strings are texts that UTF-8 encodes; a write
    that the operating system or the encoder stops half-way is not
    modelled. *)
Inductive file : Type :=
| FJson (v : value)
| FText (s : string).

(** The three places of [mcp_server/] the program uses: the directory
    [projects/], [project_registry.json] and [current_project.json]. *)
Record disk : Type := Disk {
  projects : gmap string (gmap string file);
  registry_file : option file;
  current_project_file : option file
}.

Definition set_projects (p : gmap string (gmap string file)) (d : disk) : disk :=
  Disk p (registry_file d) (current_project_file d).

Definition set_registry_file (f : option file) (d : disk) : disk :=
  Disk (projects d) f (current_project_file d).

Definition set_current_project_file (f : option file) (d : disk) : disk :=
  Disk (projects d) (registry_file d) f.

(** A reading of [datetime.now()]: the ISO text and the milliseconds since
    the epoch.  Each command takes one reading. *)
Record clock : Type := Clock {
  isoformat : string;
  millis : Z
}.

Definition VALID_FILE_TYPES : list string :=
  ["requirement.js"; "ddd.js"; "frontend_data.js";
   "technical_architecture.js"; "summary.md"].

(** [s.endswith(suffix)]. *)
Definition endswith (s suffix : string) : bool :=
  let n := String.length s in
  let m := String.length suffix in
  if (m <=? n)%nat then String.eqb (String.substring (n - m) m s) suffix else false.

(** [read_json_file]: an empty or corrupted file reads as [{}]. *)
Definition read_json_file (f : file) : value :=
  match f with
  | FJson v => v
  | FText _ => VDict []
  end.

Definition carriage_return : Ascii.ascii := Ascii.ascii_of_nat 13.
Definition line_feed : Ascii.ascii := Ascii.ascii_of_nat 10.

(** What [read] returns on a file opened in text mode for the characters
    [s]: with universal newlines a carriage return, alone or followed by a
    line feed, is read as one line feed. *)
Fixpoint universal_newlines (s : string) : string :=
  match s with
  | EmptyString => EmptyString
  | String c rest =>
      if Ascii.eqb c carriage_return then
        match rest with
        | String c' rest' =>
            if Ascii.eqb c' line_feed
            then String line_feed (universal_newlines rest')
            else String line_feed (universal_newlines rest)
        | EmptyString => String line_feed EmptyString
        end
      else String c (universal_newlines rest)
  end.

(** [carriage_return in s]. *)
Fixpoint has_carriage_return (s : string) : bool :=
  match s with
  | EmptyString => false
  | String c rest => Ascii.eqb c carriage_return || has_carriage_return rest
  end.

(** [read_text_file]; a markdown file is never a [FJson]. *)
Definition read_text_file (f : file) : outcome string :=
  match f with
  | FText s => Returned (universal_newlines s)
  | FJson _ => Raised (OtherError "not a text file")
  end.

Definition project_exists (d : disk) (project_name : string) : bool :=
  bool_decide (is_Some (projects d !! project_name)).

(** [os.path.exists(get_project_file_path(project_name, file_type))]. *)
Definition project_file (d : disk) (project_name file_type : string) : option file :=
  dir ← projects d !! project_name; dir !! file_type.

Definition write_project_file (project_name file_type : string) (f : file)
    (d : disk) : disk :=
  match projects d !! project_name with
  | Some dir => set_projects (<[project_name := <[file_type := f]> dir]> (projects d)) d
  | None => set_projects (<[project_name := {[file_type := f]}]> (projects d)) d
  end.

(** [deep_merge_dict] called on whatever [read_json_file] returned.  On a
    stored dictionary it is the merge; a stored list survives [base.copy()]
    and fails at the first key of the update; anything else has no
    [copy]. *)
Definition deep_merge_stored (current_data : value) (update_data : dict)
    : outcome value :=
  match current_data with
  | VDict base => Returned (VDict (deep_merge_dict base update_data))
  | VList items =>
      match update_data with
      | [] => Returned (VList items)
      | _ :: _ => Raised (OtherError "list indices must be integers")
      end
  | _ => Raised (OtherError "object has no attribute 'copy'")
  end.

(** [update_json_file(project_name, file_type, update_data, merge_strategy)]:
    the outcome of the call and the disk it leaves. *)
Definition update_json_file (d : disk) (project_name file_type : string)
    (update_data : value) (merge_strategy : string) : outcome value * disk :=
  if negb (bool_decide (file_type ∈ VALID_FILE_TYPES)) then
    (Raised (ValueError ("Invalid file_type '" +:+ file_type +:+ "'")), d)
  else if negb (project_exists d project_name) then
    (Raised (ValueError ("Project '" +:+ project_name +:+ "' does not exist")), d)
  else
    match project_file d project_name file_type with
    | None =>
        (Raised (FileNotFoundError
                   ("File '" +:+ file_type +:+ "' not found in project '"
                    +:+ project_name +:+ "'")), d)
    | Some stored =>
        if endswith file_type ".md" then
          match update_data with
          | VStr content =>
              (Returned update_data,
               write_project_file project_name file_type (FText content) d)
          | _ =>
              (Raised (ValueError "For markdown files, update_data must be a string"), d)
          end
        else
          match update_data with
          | VDict updates =>
              let current_data := read_json_file stored in
              let new_data :=
                if String.eqb merge_strategy "replace" then Returned update_data
                else if String.eqb merge_strategy "merge" then
                  deep_merge_stored current_data updates
                else if String.eqb merge_strategy "append" then
                  deep_merge_stored current_data updates
                else
                  Raised (ValueError ("Invalid merge_strategy '" +:+ merge_strategy
                                      +:+ "'. Must be 'replace', 'merge', or 'append'"))
              in
              match new_data with
              | Returned v =>
                  (Returned v,
                   write_project_file project_name file_type (FJson v) d)
              | Raised e => (Raised e, d)
              end
          | _ =>
              (Raised (ValueError "For JSON files, update_data must be a dict"), d)
          end
    end.

Definition is_ValueError {A} (o : outcome A) : bool :=
  match o with
  | Raised (ValueError _) => true
  | _ => false
  end.

Definition known_strategy (merge_strategy : string) : bool :=
  bool_decide (merge_strategy ∈ ["replace"; "merge"; "append"]).

(** The four structured documents every project must have, by the key
    they are loaded under, and the optional markdown summary. *)
Definition required_files : list (string * string) :=
  [("requirements", "requirement.js"); ("ddd", "ddd.js");
   ("frontend_data", "frontend_data.js");
   ("technical_architecture", "technical_architecture.js")].

(** [read_project_files]: [None] when the directory or one of the required
    files is missing.  A summary that is missing or unreadable loads as the
    empty string. *)
Definition read_project_files (d : disk) (project_name : string) : option dict :=
  match projects d !! project_name with
  | None => None
  | Some dir =>
      if forallb (λ kf : string * string, bool_decide (is_Some (dir !! kf.2)))
                 required_files
      then
        Some
          (map (λ kf : string * string,
                  (kf.1, match dir !! kf.2 with
                         | Some f => read_json_file f
                         | None => VDict []
                         end))
               required_files
           ++ [("summary",
                VStr match dir !! "summary.md" with
                     | Some f =>
                         match read_text_file f with
                         | Returned content => content
                         | Raised _ => ""
                         end
                     | None => ""
                     end)])
      else None
  end.

(** [update_project_registry(project_name, metadata)].  A registry file
    whose JSON is not a dictionary cannot be indexed and the call raises. *)
Definition update_project_registry (d : disk) (project_name : string)
    (metadata : dict) : outcome unit * disk :=
  let loaded :=
    match registry_file d with
    | None => Returned [("projects", VDict [])]
    | Some f =>
        match read_json_file f with
        | VDict registry =>
            match dict_get "projects" registry with
            | Some (VDict _) => Returned registry
            | _ => Returned (dict_set "projects" (VDict []) registry)
            end
        | _ => Raised (OtherError "registry is not a dictionary")
        end
    end in
  match loaded with
  | Raised e => (Raised e, d)
  | Returned registry =>
      let entries :=
        match dict_get "projects" registry with
        | Some (VDict entries) => entries
        | _ => []
        end in
      let registry' :=
        dict_set "projects" (VDict (dict_set project_name (VDict metadata) entries))
                 registry in
      (Returned (), set_registry_file (Some (FJson (VDict registry'))) d)
  end.

(** [remove_from_registry(project_name)].  On a registry file whose JSON
    is not a dictionary the call raises; which class it raises there is not
    tracked, the one caller catches every class. *)
Definition remove_from_registry (d : disk) (project_name : string)
    : outcome bool * disk :=
  match registry_file d with
  | None => (Raised (ValueError "Registry file does not exist"), d)
  | Some f =>
      match read_json_file f with
      | VDict registry =>
          match dict_get "projects" registry with
          | None =>
              (Raised (ValueError ("Project '" +:+ project_name
                                   +:+ "' not found in registry")), d)
          | Some (VDict entries) =>
              if dict_has project_name entries then
                let registry' :=
                  dict_set "projects" (VDict (dict_del project_name entries))
                           registry in
                (Returned true, set_registry_file (Some (FJson (VDict registry'))) d)
              else
                (Raised (ValueError ("Project '" +:+ project_name
                                     +:+ "' not found in registry")), d)
          | Some _ => (Raised (ValueError "Registry is corrupted"), d)
          end
      | other =>
          if truthy other then
            (Raised (OtherError "registry is not a dictionary"), d)
          else
            (Raised (ValueError ("Project '" +:+ project_name
                                 +:+ "' not found in registry")), d)
      end
  end.

(** [delete_project_directory(project_name)].  [shutil.rmtree] runs with
    [onerror=handle_remove_readonly], and that handler swallows every
    exception of a removal step; so [rmtree] returns, the manual retry
    under [except] is never entered, and for an existing project the call
    returns [True] whether the tree went or not.  Whether the operating
    system lets the tree go is the input [removable].  A tree that went
    only in part is not told apart from one that stayed whole: the
    directory is then taken to stay as it was. *)
Definition delete_project_directory (removable : bool) (d : disk)
    (project_name : string) : outcome bool * disk :=
  if negb (project_exists d project_name) then
    (Raised (ValueError ("Project '" +:+ project_name +:+ "' does not exist")), d)
  else if removable then
    (Returned true, set_projects (delete project_name (projects d)) d)
  else
    (Returned true, d).

(** [write_current_project(project_name)]: the marker record. *)
Definition write_current_project (now : clock) (d : disk) (project_name : string)
    : disk :=
  set_current_project_file
    (Some (FJson (VDict [("project_name", VStr project_name);
                         ("timestamp", VStr (isoformat now));
                         ("version", VInt (millis now))])))
    d.

(** [read_current_project()]: [{}] when there is no marker file. *)
Definition read_current_project (d : disk) : value :=
  match current_project_file d with
  | None => VDict []
  | Some f => read_json_file f
  end.

(** [create_project_directory]: [os.makedirs(..., exist_ok=True)]. *)
Definition create_project_directory (d : disk) (project_name : string) : disk :=
  match projects d !! project_name with
  | Some _ => d
  | None => set_projects (<[project_name := ∅]> (projects d)) d
  end.

(** [{"project_name": project_name, **metadata}]. *)
Definition project_info (project_name : string) (metadata : dict) : value :=
  VDict (foldl (λ acc kv, dict_set kv.1 kv.2 acc)
               [("project_name", VStr project_name)] metadata).

(** [get_all_projects()].  A registry that is missing, empty, corrupted or
    without a dictionary under [projects] lists nothing.  The call raises
    where the source does: on a registry whose JSON is a number, on a list
    or text that contains ["projects"] (they have no [get]), and on an
    entry whose metadata is not a dictionary. *)
Definition get_all_projects (d : disk) : outcome (list value) :=
  match registry_file d with
  | None => Returned []
  | Some f =>
      match read_json_file f with
      | VDict registry =>
          match dict_get "projects" registry with
          | Some (VDict entries) =>
              foldl (λ (acc : outcome (list value)) (kv : string * value),
                       match acc, kv.2 with
                       | Returned project_list, VDict metadata =>
                           Returned (project_list ++ [project_info kv.1 metadata])
                       | Returned _, _ =>
                           Raised (OtherError "argument after ** must be a mapping")
                       | Raised ex, _ => Raised ex
                       end)
                    (Returned []) entries
          | _ => Returned []
          end
      | VList items =>
          if negb (py_in (VStr "projects") items) then Returned []
          else Raised (OtherError "'list' object has no attribute 'get'")
      | VStr text =>
          match String.index 0 "projects" text with
          | None => Returned []
          | Some _ => Raised (OtherError "'str' object has no attribute 'get'")
          end
      | VNone | VBool false | VInt 0%Z => Returned []
      | _ => Raised (OtherError "argument is not iterable")
      end
  end.

(** The entries the registry file holds under [projects], when it holds
    any. *)
Definition registry_projects (d : disk) : dict :=
  match registry_file d with
  | Some f =>
      match read_json_file f with
      | VDict registry =>
          match dict_get "projects" registry with
          | Some (VDict entries) => entries
          | _ => []
          end
      | _ => []
      end
  | None => []
  end.

(** A small disk used to run the code on: one project [demo] holding a
    structured document and the markdown summary. *)
Definition demo_disk : disk :=
  Disk {[ "demo" := {[ "requirement.js" :=
                         FJson (VDict [("features", VList [VStr "login"])]);
                       "summary.md" := FText "# demo" ]} ]}
       None None.

Lemma project_file_exists d project_name file_type f :
  project_file d project_name file_type = Some f →
  project_exists d project_name = true.
Proof.
  unfold project_file, project_exists. intros H.
  apply bool_decide_eq_true.
  destruct (projects d !! project_name); [by eexists | done].
Qed.

(** The checks every call passes before it looks at the payload. *)
Lemma update_json_file_found d project_name file_type update_data merge_strategy stored :
  file_type ∈ VALID_FILE_TYPES →
  project_file d project_name file_type = Some stored →
  update_json_file d project_name file_type update_data merge_strategy =
  if endswith file_type ".md" then
    match update_data with
    | VStr content =>
        (Returned update_data,
         write_project_file project_name file_type (FText content) d)
    | _ => (Raised (ValueError "For markdown files, update_data must be a string"), d)
    end
  else
    match update_data with
    | VDict updates =>
        match
          (if String.eqb merge_strategy "replace" then Returned update_data
           else if String.eqb merge_strategy "merge" then
             deep_merge_stored (read_json_file stored) updates
           else if String.eqb merge_strategy "append" then
             deep_merge_stored (read_json_file stored) updates
           else
             Raised (ValueError ("Invalid merge_strategy '" +:+ merge_strategy
                                 +:+ "'. Must be 'replace', 'merge', or 'append'")))
        with
        | Returned v =>
            (Returned v, write_project_file project_name file_type (FJson v) d)
        | Raised e => (Raised e, d)
        end
    | _ => (Raised (ValueError "For JSON files, update_data must be a dict"), d)
    end.
Proof.
  intros Hvalid Hfile. unfold update_json_file.
  rewrite (bool_decide_eq_true_2 _ Hvalid). simpl negb. cbv iota.
  rewrite (project_file_exists _ _ _ _ Hfile). simpl negb. cbv iota.
  by rewrite Hfile.
Qed.

(** Nothing is written when the call raises. *)
Lemma update_json_file_raise_keeps_disk d project_name file_type update_data merge_strategy e :
  (update_json_file d project_name file_type update_data merge_strategy).1 = Raised e →
  (update_json_file d project_name file_type update_data merge_strategy).2 = d.
Proof.
  unfold update_json_file.
  repeat match goal with
         | |- context [if ?b then _ else _] => destruct b
         | |- context [match ?x with _ => _ end] => destruct x
         end; simpl; done.
Qed.

Lemma unknown_strategy_eqb merge_strategy :
  known_strategy merge_strategy = false →
  String.eqb merge_strategy "replace" = false ∧
  String.eqb merge_strategy "merge" = false ∧
  String.eqb merge_strategy "append" = false.
Proof.
  unfold known_strategy. rewrite bool_decide_eq_false.
  intros Hnot. repeat split; apply String.eqb_neq; intros ->; apply Hnot;
    repeat (first [apply list_elem_of_here | apply list_elem_of_further]).
Qed.

(** C2. For a stored structured document [A] and a dictionary update [B],
    the strategies [merge] and [append] do the same thing: they write and
    return [deep_merge_dict A B], in which
    - a key of both whose two values are dictionaries holds their merge;
    - a key of both whose two values are lists holds [A]'s list followed by
      those items of [B]'s list that are not already present under [==], in
      [B]'s order ([fresh_items]: an item is present when it is in [A]'s list
      or was added before it, so a list of [B] without repeated items
      contributes exactly its items that are not in [A]'s list); no item of
      [A]'s list is dropped and every item of [B]'s list is present in the
      result;
    - a key of both with any other pair of values holds [B]'s value;
    - a key of [B] alone is added with [B]'s value;
    - a key of [A] alone keeps its value. *)
Theorem merge_and_append_keywise d project_name file_type (A B : dict) :
  file_type ∈ VALID_FILE_TYPES →
  endswith file_type ".md" = false →
  project_file d project_name file_type = Some (FJson (VDict A)) →
  NoDup (keys B) →
  let R := deep_merge_dict A B in
  update_json_file d project_name file_type (VDict B) "merge" =
    (Returned (VDict R),
     write_project_file project_name file_type (FJson (VDict R)) d) ∧
  update_json_file d project_name file_type (VDict B) "append" =
    update_json_file d project_name file_type (VDict B) "merge" ∧
  (∀ key a b,
      dict_get key A = Some (VDict a) → dict_get key B = Some (VDict b) →
      dict_get key R = Some (VDict (deep_merge_dict a b))) ∧
  (∀ key la lb,
      dict_get key A = Some (VList la) → dict_get key B = Some (VList lb) →
      dict_get key R = Some (VList (la ++ fresh_items la lb)) ∧
      sublist (fresh_items la lb) lb ∧
      (∀ x, x ∈ fresh_items la lb → py_in x la = false) ∧
      (wf_value (VList lb) = true →
       ∀ x, x ∈ lb → py_in x (la ++ fresh_items la lb) = true) ∧
      (py_distinct lb →
       fresh_items la lb = List.filter (λ y, negb (py_in y la)) lb)) ∧
  (∀ key a b,
      dict_get key A = Some a → dict_get key B = Some b →
      is_dict a && is_dict b = false → is_list a && is_list b = false →
      dict_get key R = Some b) ∧
  (∀ key b,
      dict_get key A = None → dict_get key B = Some b →
      dict_get key R = Some b) ∧
  (∀ key, dict_get key B = None → dict_get key R = dict_get key A).
Proof.
  intros Hvalid Hmd Hfile Hnd R.
  assert (Hget : ∀ key b, dict_get key B = Some b →
            dict_get key R = Some (merged_value b (dict_get key A))).
  { intros key b Hb. apply deep_merge_dict_get; [done |].
    by apply dict_get_Some_elem. }
  split; [| split; [| split; [| split; [| split; [| split]]]]].
  - rewrite (update_json_file_found _ _ _ _ _ _ Hvalid Hfile), Hmd. done.
  - rewrite !(update_json_file_found _ _ _ _ _ _ Hvalid Hfile), Hmd. done.
  - intros key a b Ha Hb. by rewrite (Hget _ _ Hb), Ha, merged_value_dicts.
  - intros key la lb Ha Hb. split; [| split; [| split; [| split]]].
    + by rewrite (Hget _ _ Hb), Ha, merged_value_lists, extend_unique_fresh.
    + apply fresh_items_sublist.
    + intros x. apply fresh_items_absent.
    + intros Hwf x. by apply fresh_items_cover.
    + intros Hd. by apply fresh_items_filter.
  - intros key a b Ha Hb Hdict Hlist.
    by rewrite (Hget _ _ Hb), Ha, merged_value_overwrite.
  - intros key b Ha Hb. by rewrite (Hget _ _ Hb), Ha, merged_value_new.
  - intros key Hb. apply deep_merge_dict_get_other. by apply dict_get_None.
Qed.

Lemma merge_and_append_keywise_witness :
  let A := [("features", VList [VStr "login"])] in
  let B := [("features", VList [VStr "login"; VStr "signup"]);
            ("pages", VList [])] in
  dict_get "features" (deep_merge_dict A B) =
    Some (VList ([VStr "login"] ++ fresh_items [VStr "login"] [VStr "login"; VStr "signup"])) ∧
  update_json_file demo_disk "demo" "requirement.js" (VDict B) "append" =
    update_json_file demo_disk "demo" "requirement.js" (VDict B) "merge".
Proof.
  intros A B.
  assert (Hvalid : "requirement.js" ∈ VALID_FILE_TYPES) by apply list_elem_of_here.
  assert (Hnd : NoDup (keys B)) by compute_done.
  destruct (merge_and_append_keywise demo_disk "demo" "requirement.js" A B
              Hvalid eq_refl eq_refl Hnd)
    as (_ & Happend & _ & Hlists & _).
  split; [| exact Happend].
  apply (Hlists "features" [VStr "login"] [VStr "login"; VStr "signup"]);
    reflexivity.
Defined.

(** C10. On a markdown document with a string payload the strategy is not
    looked at: [merge], [append] and any other strategy give what [replace]
    gives, and when the document exists the call returns the payload and
    leaves it, verbatim, as the content of the file. *)
Theorem markdown_update_is_replace d project_name file_type content merge_strategy :
  file_type ∈ VALID_FILE_TYPES →
  endswith file_type ".md" = true →
  update_json_file d project_name file_type (VStr content) merge_strategy =
    update_json_file d project_name file_type (VStr content) "replace" ∧
  (is_Some (project_file d project_name file_type) →
   (update_json_file d project_name file_type (VStr content) merge_strategy).1 =
     Returned (VStr content) ∧
   project_file
     (update_json_file d project_name file_type (VStr content) merge_strategy).2
     project_name file_type = Some (FText content)).
Proof.
  intros Hvalid Hmd. split.
  - unfold update_json_file. by rewrite Hmd.
  - intros [stored Hfile].
    rewrite (update_json_file_found _ _ _ _ _ _ Hvalid Hfile), Hmd. simpl.
    split; [done |].
    unfold project_file in *. unfold write_project_file.
    destruct (projects d !! project_name) as [dir|] eqn:Hdir; [|done].
    simpl. rewrite lookup_insert_eq. simpl. by rewrite lookup_insert_eq.
Qed.

Lemma markdown_update_is_replace_witness :
  update_json_file demo_disk "demo" "summary.md" (VStr "notes") "merge" =
    update_json_file demo_disk "demo" "summary.md" (VStr "notes") "replace" ∧
  (update_json_file demo_disk "demo" "summary.md" (VStr "notes") "append").1 =
    Returned (VStr "notes").
Proof.
  assert (Hvalid : "summary.md" ∈ VALID_FILE_TYPES) by compute_done.
  split.
  - apply (markdown_update_is_replace demo_disk "demo" "summary.md" "notes" "merge"
             Hvalid eq_refl).
  - apply (markdown_update_is_replace demo_disk "demo" "summary.md" "notes" "append"
             Hvalid eq_refl).
    by eexists.
Defined.

(** C7, as stated, fails on a markdown document: a strategy outside
    [replace], [merge], [append] is accepted there, the call returns and
    the file is rewritten. *)
Lemma unknown_strategy_on_markdown_accepted :
  known_strategy "bogus" = false ∧
  endswith "summary.md" ".md" = true ∧
  (update_json_file demo_disk "demo" "summary.md" (VStr "notes") "bogus").1 =
    Returned (VStr "notes") ∧
  is_ValueError
    (update_json_file demo_disk "demo" "summary.md" (VStr "notes") "bogus").1 = false ∧
  project_file demo_disk "demo" "summary.md" = Some (FText "# demo") ∧
  project_file
    (update_json_file demo_disk "demo" "summary.md" (VStr "notes") "bogus").2
    "demo" "summary.md" = Some (FText "notes").
Proof. vm_compute. repeat split; reflexivity. Qed.

(** C7, amended. On an existing document:
    - structured ([.js]) with a dictionary payload: a strategy outside
      [replace], [merge], [append] raises [ValueError] and nothing is
      written;
    - structured with a payload that is not a dictionary: [ValueError],
      nothing written, whatever the strategy;
    - markdown ([.md]) with a payload that is not a string: [ValueError],
      nothing written, whatever the strategy;
    - markdown with a string payload: the strategy is not checked; for
      every strategy name the call returns the payload and writes it: the
      document then holds the payload, and nothing else on the disk has
      changed. *)
Theorem update_json_file_validation d project_name file_type update_data merge_strategy :
  file_type ∈ VALID_FILE_TYPES →
  is_Some (project_file d project_name file_type) →
  let call := update_json_file d project_name file_type update_data merge_strategy in
  (endswith file_type ".md" = false → is_dict update_data = true →
   known_strategy merge_strategy = false →
   is_ValueError call.1 = true ∧ call.2 = d) ∧
  (endswith file_type ".md" = false → is_dict update_data = false →
   is_ValueError call.1 = true ∧ call.2 = d) ∧
  (endswith file_type ".md" = true → is_str update_data = false →
   is_ValueError call.1 = true ∧ call.2 = d) ∧
  (endswith file_type ".md" = true → is_str update_data = true →
   call.1 = Returned update_data ∧
   ∃ content,
     update_data = VStr content ∧
     call.2 = write_project_file project_name file_type (FText content) d ∧
     project_file call.2 project_name file_type = Some (FText content)).
Proof.
  intros Hvalid [stored Hfile] call. subst call.
  rewrite (update_json_file_found _ _ _ _ _ _ Hvalid Hfile).
  split; [| split; [| split]]; intros Hmd; rewrite Hmd.
  - intros Hdict Hunknown.
    destruct (unknown_strategy_eqb _ Hunknown) as (-> & -> & ->).
    by destruct update_data.
  - intros Hdict. by destruct update_data.
  - intros Hstr. by destruct update_data.
  - intros Hstr. destruct update_data as [| | |content| |]; try done.
    cbn [fst snd]. split; [done |]. exists content.
    split; [done |]. split; [done |].
    unfold project_file in *. unfold write_project_file.
    destruct (projects d !! project_name) as [dir|] eqn:Hdir; [|done].
    simpl. rewrite lookup_insert_eq. simpl. by rewrite lookup_insert_eq.
Qed.

Lemma update_json_file_validation_witness :
  is_ValueError
    (update_json_file demo_disk "demo" "requirement.js" (VDict []) "bogus").1 = true ∧
  (update_json_file demo_disk "demo" "requirement.js" (VDict []) "bogus").2 = demo_disk ∧
  is_ValueError
    (update_json_file demo_disk "demo" "requirement.js" (VStr "text") "bogus").1 = true ∧
  (update_json_file demo_disk "demo" "summary.md" (VStr "notes") "bogus").1 =
    Returned (VStr "notes").
Proof.
  assert (Hvalid : "requirement.js" ∈ VALID_FILE_TYPES) by compute_done.
  assert (Hfile : is_Some (project_file demo_disk "demo" "requirement.js"))
    by (by eexists).
  assert (Hvalid' : "summary.md" ∈ VALID_FILE_TYPES) by compute_done.
  assert (Hfile' : is_Some (project_file demo_disk "demo" "summary.md"))
    by (by eexists).
  destruct (update_json_file_validation demo_disk "demo" "requirement.js"
              (VDict []) "bogus" Hvalid Hfile) as (Hunknown & _).
  destruct (update_json_file_validation demo_disk "demo" "requirement.js"
              (VStr "text") "bogus" Hvalid Hfile) as (_ & Hmismatch & _).
  destruct (update_json_file_validation demo_disk "demo" "summary.md"
              (VStr "notes") "bogus" Hvalid' Hfile') as (_ & _ & _ & Hmarkdown).
  destruct (Hunknown eq_refl eq_refl eq_refl) as [H1 H2].
  destruct (Hmismatch eq_refl eq_refl) as [H3 _].
  destruct (Hmarkdown eq_refl eq_refl) as [H4 _].
  repeat split; assumption.
Defined.

(** *** Reading back what was written *)

Lemma project_file_write project_name file_type f d project_name' file_type' :
  project_file (write_project_file project_name file_type f d) project_name' file_type' =
  if decide (project_name = project_name' ∧ file_type = file_type') then Some f
  else project_file d project_name' file_type'.
Proof.
  unfold project_file, write_project_file.
  destruct (projects d !! project_name) as [dir|] eqn:Hdir; simpl.
  - destruct (decide (project_name = project_name')) as [<-|Hp].
    + rewrite lookup_insert_eq, Hdir. simpl.
      destruct (decide (file_type = file_type')) as [<-|Hf].
      * rewrite lookup_insert_eq. by rewrite decide_True.
      * rewrite lookup_insert_ne by done. rewrite decide_False by tauto. done.
    + rewrite lookup_insert_ne by done. rewrite decide_False by tauto. done.
  - destruct (decide (project_name = project_name')) as [<-|Hp].
    + rewrite lookup_insert_eq, Hdir. simpl.
      destruct (decide (file_type = file_type')) as [<-|Hf].
      * rewrite lookup_singleton_eq. by rewrite decide_True.
      * rewrite lookup_singleton_ne by done. rewrite decide_False by tauto. done.
    + rewrite lookup_insert_ne by done. rewrite decide_False by tauto. done.
Qed.

Lemma update_json_file_disk d project_name file_type update_data merge_strategy :
  (update_json_file d project_name file_type update_data merge_strategy).2 = d ∨
  (project_exists d project_name = true ∧
   is_returned (update_json_file d project_name file_type update_data merge_strategy).1 = true ∧
   ∃ f, (update_json_file d project_name file_type update_data merge_strategy).2 =
        write_project_file project_name file_type f d).
Proof.
  unfold update_json_file.
  destruct (negb (bool_decide (file_type ∈ VALID_FILE_TYPES))); [by left |].
  destruct (project_exists d project_name) eqn:Hexists; [|by left]. cbn [negb].
  destruct (project_file d project_name file_type) as [stored|]; [|by left].
  destruct (endswith file_type ".md").
  - destruct update_data; try by left.
    right. split; [done |]. split; [done |]. by eexists.
  - destruct update_data as [| | | | |updates]; try by left.
    destruct (if String.eqb merge_strategy "replace" then _ else _) as [v|ex];
      [|by left].
    right. split; [done |]. split; [done |]. by eexists.
Qed.

Lemma project_exists_write project_name file_type f d project_name' :
  project_exists d project_name = true →
  project_exists (write_project_file project_name file_type f d) project_name' =
  project_exists d project_name'.
Proof.
  unfold project_exists, write_project_file. intros Hexists.
  apply bool_decide_eq_true in Hexists as [dir Hdir]. rewrite Hdir. simpl.
  apply bool_decide_ext.
  destruct (decide (project_name = project_name')) as [<-|Hne].
  - rewrite lookup_insert_eq, Hdir. split; by eexists.
  - by rewrite lookup_insert_ne.
Qed.

(** [update_json_file] touches no file but the one it is called on,
    whether it returns or raises: the registry and the marker file are not
    written, no project appears or disappears, and every other file of
    every project keeps its content. *)
Theorem update_json_file_frame d project_name file_type update_data merge_strategy :
  let call := update_json_file d project_name file_type update_data merge_strategy in
  registry_file call.2 = registry_file d ∧
  current_project_file call.2 = current_project_file d ∧
  (∀ project_name', project_exists call.2 project_name' = project_exists d project_name') ∧
  (∀ project_name' file_type',
      ¬ (project_name = project_name' ∧ file_type = file_type') →
      project_file call.2 project_name' file_type' =
      project_file d project_name' file_type').
Proof.
  intros call. subst call.
  destruct (update_json_file_disk d project_name file_type update_data merge_strategy)
    as [->|(Hexists & Hret & f & ->)].
  - done.
  - split; [by unfold write_project_file; destruct (projects d !! project_name) |].
    split; [by unfold write_project_file; destruct (projects d !! project_name) |].
    split; [intros p'; by apply project_exists_write |].
    intros p' f' Hne. rewrite project_file_write. by rewrite decide_False.
Qed.

Lemma universal_newlines_id s :
  has_carriage_return s = false → universal_newlines s = s.
Proof.
  induction s as [|c rest IH]; [done |]. simpl.
  intros [Hc Hrest]%orb_false_iff. rewrite Hc. by rewrite IH.
Qed.

(** Reading back what a call wrote.  After a call that returns [v]: a JSON
    document reads back as [v]; a markdown document was given the payload,
    which is [v], and reads back as the payload with every carriage
    return, alone or before a line feed, turned into a line feed; so it
    reads back as the payload itself when the payload holds no carriage
    return. *)
Theorem update_json_file_read_back d project_name file_type update_data merge_strategy v :
  (update_json_file d project_name file_type update_data merge_strategy).1 = Returned v →
  let d' := (update_json_file d project_name file_type update_data merge_strategy).2 in
  if endswith file_type ".md" then
    v = update_data ∧
    ∃ content, v = VStr content ∧
      read_text_file <$> project_file d' project_name file_type =
        Some (Returned (universal_newlines content)) ∧
      (has_carriage_return content = false →
       read_text_file <$> project_file d' project_name file_type =
         Some (Returned content))
  else
    read_json_file <$> project_file d' project_name file_type = Some v.
Proof.
  unfold update_json_file.
  destruct (negb (bool_decide (file_type ∈ VALID_FILE_TYPES))); [done |].
  destruct (negb (project_exists d project_name)); [done |].
  destruct (project_file d project_name file_type) as [stored|]; [|done].
  destruct (endswith file_type ".md").
  - destruct update_data as [| | |content| |]; try done.
    simpl. intros [= <-]. split; [done |]. exists content. split; [done |].
    rewrite project_file_write. rewrite decide_True by done.
    split; [done |]. intros Hcr. simpl. by rewrite universal_newlines_id.
  - destruct update_data as [| | | | |updates]; try done.
    destruct (if String.eqb merge_strategy "replace" then _ else _) as [w|ex];
      [|done].
    simpl. intros [= <-]. rewrite project_file_write. by rewrite decide_True.
Qed.

Lemma update_json_file_read_back_witness :
  read_json_file <$>
    project_file
      (update_json_file demo_disk "demo" "requirement.js"
         (VDict [("features", VList [VStr "signup"])]) "merge").2
      "demo" "requirement.js" =
    Some (VDict [("features", VList [VStr "login"; VStr "signup"])]) ∧
  ∃ content,
    VStr (String carriage_return (String line_feed "b")) = VStr content ∧
    read_text_file <$>
      project_file
        (update_json_file demo_disk "demo" "summary.md"
           (VStr (String carriage_return (String line_feed "b")))
           "replace").2
        "demo" "summary.md" =
      Some (Returned (String line_feed "b")).
Proof.
  split.
  - apply (update_json_file_read_back demo_disk "demo" "requirement.js"
             (VDict [("features", VList [VStr "signup"])]) "merge").
    vm_compute. reflexivity.
  - destruct (update_json_file_read_back demo_disk "demo" "summary.md"
                (VStr (String carriage_return (String line_feed "b")))
                "replace" _ eq_refl) as (_ & content & Hcontent & Hread & _).
    exists content. split; [exact Hcontent |].
    injection Hcontent as <-. exact Hread.
Defined.

(** [replace] does not look at what the file holds: on an existing
    structured document it returns the payload, whatever was stored, even a
    corrupted file. *)
Theorem replace_ignores_stored d project_name file_type updates stored :
  file_type ∈ VALID_FILE_TYPES →
  endswith file_type ".md" = false →
  project_file d project_name file_type = Some stored →
  update_json_file d project_name file_type (VDict updates) "replace" =
  (Returned (VDict updates),
   write_project_file project_name file_type (FJson (VDict updates)) d).
Proof.
  intros Hvalid Hmd Hfile.
  by rewrite (update_json_file_found _ _ _ _ _ _ Hvalid Hfile), Hmd.
Qed.

Lemma replace_ignores_stored_witness :
  (update_json_file demo_disk "demo" "requirement.js" (VDict [("pages", VList [])])
     "replace").1 = Returned (VDict [("pages", VList [])]).
Proof.
  assert (Hvalid : "requirement.js" ∈ VALID_FILE_TYPES) by compute_done.
  by rewrite (replace_ignores_stored demo_disk "demo" "requirement.js"
                [("pages", VList [])] _ Hvalid eq_refl eq_refl).
Defined.

(** Merging into a document that is empty or corrupted, or that holds the
    empty dictionary, gives the payload itself: on such a file [merge] and
    [append] do what [replace] does. *)
Theorem merge_into_empty_is_replace d project_name file_type updates stored merge_strategy :
  file_type ∈ VALID_FILE_TYPES →
  endswith file_type ".md" = false →
  project_file d project_name file_type = Some stored →
  read_json_file stored = VDict [] →
  NoDup (keys updates) →
  merge_strategy ∈ ["merge"; "append"] →
  update_json_file d project_name file_type (VDict updates) merge_strategy =
  update_json_file d project_name file_type (VDict updates) "replace".
Proof.
  intros Hvalid Hmd Hfile Hempty Hnd Hstrategy.
  rewrite !(update_json_file_found _ _ _ _ _ _ Hvalid Hfile), Hmd, Hempty.
  assert (Hmerge : deep_merge_stored (VDict []) updates = Returned (VDict updates)).
  { unfold deep_merge_stored. by rewrite (deep_merge_dict_append [] updates). }
  rewrite Hmerge.
  apply elem_of_cons in Hstrategy as [->|Hstrategy]; [done |].
  apply list_elem_of_singleton in Hstrategy as ->. done.
Qed.

Lemma merge_into_empty_is_replace_witness :
  let d := write_project_file "demo" "ddd.js" (FText "{ not json") demo_disk in
  update_json_file d "demo" "ddd.js" (VDict [("entities", VList [])]) "merge" =
  update_json_file d "demo" "ddd.js" (VDict [("entities", VList [])]) "replace".
Proof.
  intros d.
  assert (Hvalid : "ddd.js" ∈ VALID_FILE_TYPES) by compute_done.
  assert (Hnd : NoDup (keys [("entities", VList [])])) by compute_done.
  assert (Hstrategy : "merge" ∈ ["merge"; "append"]) by compute_done.
  exact (merge_into_empty_is_replace d "demo" "ddd.js" [("entities", VList [])]
           (FText "{ not json") "merge" Hvalid eq_refl eq_refl eq_refl Hnd Hstrategy).
Defined.

(** The checks come in a fixed order: an unknown file name is a
    [ValueError] even for a project that does not exist; an unknown project
    is a [ValueError]; a known project without the file is a
    [FileNotFoundError].  None of them writes. *)
Theorem update_json_file_checks d project_name file_type update_data merge_strategy :
  let call := update_json_file d project_name file_type update_data merge_strategy in
  (file_type ∉ VALID_FILE_TYPES → is_ValueError call.1 = true ∧ call.2 = d) ∧
  (file_type ∈ VALID_FILE_TYPES → project_exists d project_name = false →
   is_ValueError call.1 = true ∧ call.2 = d) ∧
  (file_type ∈ VALID_FILE_TYPES → project_exists d project_name = true →
   project_file d project_name file_type = None →
   (∃ message, call.1 = Raised (FileNotFoundError message)) ∧ call.2 = d).
Proof.
  intros call. subst call. unfold update_json_file. split; [| split].
  - intros Hinvalid. by rewrite bool_decide_eq_false_2.
  - intros Hvalid Hmissing. by rewrite bool_decide_eq_true_2, Hmissing.
  - intros Hvalid Hexists Hfile.
    rewrite bool_decide_eq_true_2, Hexists, Hfile by done. simpl.
    split; [by eexists | done].
Qed.

Lemma update_json_file_checks_witness :
  is_ValueError (update_json_file demo_disk "nowhere" "notes.txt" (VDict []) "merge").1 = true ∧
  is_ValueError (update_json_file demo_disk "nowhere" "ddd.js" (VDict []) "merge").1 = true ∧
  ∃ message,
    (update_json_file demo_disk "demo" "ddd.js" (VDict []) "merge").1 =
    Raised (FileNotFoundError message).
Proof.
  assert (Hvalid : "ddd.js" ∈ VALID_FILE_TYPES) by compute_done.
  assert (Hinvalid : "notes.txt" ∉ VALID_FILE_TYPES) by compute_done.
  destruct (update_json_file_checks demo_disk "nowhere" "notes.txt" (VDict []) "merge")
    as (H1 & _).
  destruct (update_json_file_checks demo_disk "nowhere" "ddd.js" (VDict []) "merge")
    as (_ & H2 & _).
  destruct (update_json_file_checks demo_disk "demo" "ddd.js" (VDict []) "merge")
    as (_ & _ & H3).
  split; [exact (proj1 (H1 Hinvalid)) |].
  split; [exact (proj1 (H2 Hvalid eq_refl)) |].
  exact (proj1 (H3 Hvalid eq_refl eq_refl)).
Defined.

(** *** Loading a project *)

(** [read_project_files] loads a project exactly when its directory holds
    the four structured documents; what it loads then has the five keys in
    a fixed order, each structured document as [read_json_file] reads it (an
    empty or corrupted one as the empty dictionary), and the summary as
    its text reads (a carriage return as a line feed), empty when the file
    is missing. *)
Theorem read_project_files_complete d project_name :
  (is_Some (read_project_files d project_name) ↔
   ∀ kf, kf ∈ required_files → is_Some (project_file d project_name kf.2)) ∧
  (∀ project_files,
      read_project_files d project_name = Some project_files →
      keys project_files =
        ["requirements"; "ddd"; "frontend_data"; "technical_architecture"; "summary"] ∧
      (∀ kf, kf ∈ required_files →
             dict_get kf.1 project_files =
             read_json_file <$> project_file d project_name kf.2) ∧
      dict_get "summary" project_files =
        Some (VStr match project_file d project_name "summary.md" with
                   | Some (FText content) => universal_newlines content
                   | _ => ""
                   end)).
Proof.
  unfold read_project_files.
  destruct (projects d !! project_name) as [dir|] eqn:Hdir.
  - assert (Hpf : ∀ file_type, project_file d project_name file_type = dir !! file_type)
      by (intros ft; unfold project_file; by rewrite Hdir).
    destruct (forallb (λ kf : string * string, bool_decide (is_Some (dir !! kf.2)))
                      required_files) eqn:Hall.
    + rewrite forallb_forall in Hall.
      assert (Hreq : ∀ kf, kf ∈ required_files → is_Some (dir !! kf.2)).
      { intros kf Hkf. apply list_elem_of_In in Hkf. apply Hall in Hkf.
        by apply bool_decide_eq_true in Hkf. }
      split.
      * split; [| intros _; by eexists]. intros _ kf Hkf. rewrite Hpf. by apply Hreq.
      * intros project_files [= <-]. split; [done |]. split.
        -- intros kf Hkf. rewrite Hpf. destruct (Hreq kf Hkf) as [f Hf].
           repeat (apply elem_of_cons in Hkf as [->|Hkf];
                   [simpl in *; by rewrite Hf |]).
           by apply elem_of_nil in Hkf.
        -- rewrite Hpf. simpl. by destruct (dir !! "summary.md") as [[]|].
    + split; [|done]. split; [by intros [? [=]] |]. intros Hreq. exfalso.
      apply not_true_iff_false in Hall. apply Hall.
      apply forallb_forall. intros kf Hkf. apply bool_decide_eq_true.
      rewrite <- Hpf. apply Hreq. by apply list_elem_of_In.
  - split; [|done]. split; [by intros [? [=]] |]. intros Hreq.
    destruct (Hreq ("ddd", "ddd.js")) as [f Hf]; [compute_done |].
    unfold project_file in Hf. by rewrite Hdir in Hf.
Qed.

(** *** The registry *)

Lemma dict_get_del_ne key key' d :
  key ≠ key' → dict_get key' (dict_del key d) = dict_get key' d.
Proof.
  intros Hne. induction d as [|[k w] d IH]; simpl; [done |].
  destruct (decide (k = key)) as [->|Hk]; simpl.
  - by rewrite decide_False.
  - destruct (decide (k = key')); [done | apply IH].
Qed.

Lemma dict_get_del_eq key d :
  NoDup (keys d) → dict_get key (dict_del key d) = None.
Proof.
  unfold keys. induction d as [|[k w] d IH]; csimpl; [done |].
  intros [Hk Hnd]%NoDup_cons.
  destruct (decide (k = key)) as [->|Hne]; simpl.
  - by apply dict_get_None.
  - rewrite decide_False by done. by apply IH.
Qed.

Lemma registry_projects_written registry entries d :
  dict_get "projects" registry = Some (VDict entries) →
  registry_projects (set_registry_file (Some (FJson (VDict registry))) d) = entries.
Proof. unfold registry_projects. simpl. by intros ->. Qed.

Lemma update_project_registry_sets d project_name metadata :
  is_returned (update_project_registry d project_name metadata).1 = true →
  registry_projects (update_project_registry d project_name metadata).2 =
    dict_set project_name (VDict metadata) (registry_projects d).
Proof.
  unfold update_project_registry, registry_projects.
  destruct (registry_file d) as [f|]; [| done].
  destruct (read_json_file f) as [| | | | |registry]; simpl; try done.
  destruct (dict_get "projects" registry) as [[| | | | |entries]|] eqn:Hget; simpl;
    intros _; rewrite ?Hget; repeat (rewrite dict_get_set_eq; simpl); done.
Qed.

Lemma remove_from_registry_returns d project_name :
  is_returned (remove_from_registry d project_name).1 =
  dict_has project_name (registry_projects d).
Proof.
  unfold remove_from_registry, registry_projects.
  repeat (match goal with
          | |- context [match ?x with _ => _ end] => destruct x eqn:?
          end; simpl);
    done.
Qed.

Lemma remove_from_registry_dels d project_name :
  is_returned (remove_from_registry d project_name).1 = true →
  (remove_from_registry d project_name).1 = Returned true ∧
  registry_projects (remove_from_registry d project_name).2 =
    dict_del project_name (registry_projects d).
Proof.
  unfold remove_from_registry, registry_projects.
  destruct (registry_file d) as [f|]; [| done].
  destruct (read_json_file f) as [|[]| n |text|items|registry];
    try done; try (by destruct (truthy _)).
  destruct (dict_get "projects" registry) as [[| | | | |entries]|] eqn:Hget;
    try done.
  destruct (dict_has project_name entries); [| done].
  simpl. intros _. by rewrite dict_get_set_eq.
Qed.

(** [update_project_registry] raises only on a registry file whose JSON is
    not a dictionary.  When it returns, the registry holds the metadata
    under the project's name, every other entry is as before (a registry
    that was missing, corrupted or without entries counts as empty), and
    neither the projects nor the marker file were touched. *)
Theorem update_project_registry_entries d project_name metadata :
  let call := update_project_registry d project_name metadata in
  (is_returned call.1 = false ↔
   ∃ f, registry_file d = Some f ∧ is_dict (read_json_file f) = false) ∧
  (is_returned call.1 = true →
   registry_projects call.2 =
     dict_set project_name (VDict metadata) (registry_projects d) ∧
   projects call.2 = projects d ∧
   current_project_file call.2 = current_project_file d) ∧
  (is_returned call.1 = false → call.2 = d).
Proof.
  intros call. subst call. unfold update_project_registry, registry_projects.
  destruct (registry_file d) as [f|] eqn:Hreg.
  - destruct (read_json_file f) as [| | | | |registry] eqn:Hread; simpl;
      try (split; [split; [intros _; exists f; by rewrite Hread | done]
                  | split; [done | done]]).
    destruct (dict_get "projects" registry) as [[| | | | |entries]|] eqn:Hget; simpl;
      (split; [split; [done | by intros (? & [= <-] & Hd); rewrite Hread in Hd] |];
       split; [intros _ | done]; rewrite ?Hget;
       repeat (rewrite dict_get_set_eq; simpl); done).
  - simpl. split; [split; [done | by intros (? & [=] & _)] |].
    split; [by intros _ | done].
Qed.

(** [remove_from_registry] returns exactly when the registry lists the
    project.  It then removes that entry and no other; when it raises,
    nothing was written.  The projects and the marker file are never
    touched. *)
Theorem remove_from_registry_entries d project_name :
  let call := remove_from_registry d project_name in
  is_returned call.1 = dict_has project_name (registry_projects d) ∧
  (is_returned call.1 = true →
   registry_projects call.2 = dict_del project_name (registry_projects d) ∧
   projects call.2 = projects d ∧
   current_project_file call.2 = current_project_file d) ∧
  (is_returned call.1 = false → call.2 = d).
Proof.
  intros call. subst call. unfold remove_from_registry, registry_projects.
  destruct (registry_file d) as [f|] eqn:Hreg; [|done].
  destruct (read_json_file f) as [|[]| n |text|items|registry] eqn:Hread;
    try done; try (by destruct (truthy _)).
  destruct (dict_get "projects" registry) as [[| | | | |entries]|] eqn:Hget;
    try done.
  destruct (dict_has project_name entries) eqn:Hhas; [|done].
  simpl. split; [done |]. split; [|done]. intros _.
  by rewrite dict_get_set_eq.
Qed.

(** Registering a project and removing it again: the removal succeeds, the
    project is no longer listed, and every other entry is as it was before
    the registration. *)
Theorem registry_update_then_remove d project_name metadata :
  NoDup (keys (registry_projects d)) →
  is_returned (update_project_registry d project_name metadata).1 = true →
  let d1 := (update_project_registry d project_name metadata).2 in
  (remove_from_registry d1 project_name).1 = Returned true ∧
  (∀ other,
      dict_get other (registry_projects (remove_from_registry d1 project_name).2) =
      if decide (other = project_name) then None
      else dict_get other (registry_projects d)).
Proof.
  intros Hnd Hupdated d1.
  pose proof (update_project_registry_sets d project_name metadata Hupdated)
    as Hentries.
  fold d1 in Hentries.
  assert (Hret : is_returned (remove_from_registry d1 project_name).1 = true).
  { rewrite remove_from_registry_returns, Hentries. unfold dict_has.
    by rewrite dict_get_set_eq. }
  destruct (remove_from_registry_dels d1 project_name Hret) as [Hremoved Hdel].
  split; [exact Hremoved |].
  intros other. rewrite Hdel, Hentries.
  destruct (decide (other = project_name)) as [->|Hne].
  - apply dict_get_del_eq. by apply dict_set_NoDup.
  - rewrite dict_get_del_ne, dict_get_set_ne by done. done.
Qed.

Lemma registry_update_then_remove_witness :
  let d1 := (update_project_registry demo_disk "demo"
               [("status", VStr "initialized")]).2 in
  (remove_from_registry d1 "demo").1 = Returned true ∧
  dict_get "demo" (registry_projects (remove_from_registry d1 "demo").2) = None.
Proof.
  intros d1.
  assert (Hnd : NoDup (keys (registry_projects demo_disk))) by compute_done.
  destruct (registry_update_then_remove demo_disk "demo"
              [("status", VStr "initialized")] Hnd eq_refl) as [Hremoved Hentries].
  split; [exact Hremoved |]. exact (Hentries "demo").
Defined.

Lemma get_all_projects_fold entries project_list :
  Forall (λ kv : string * value, is_dict kv.2 = true) entries →
  foldl (λ (acc : outcome (list value)) (kv : string * value),
           match acc, kv.2 with
           | Returned project_list, VDict metadata =>
               Returned (project_list ++ [project_info kv.1 metadata])
           | Returned _, _ =>
               Raised (OtherError "argument after ** must be a mapping")
           | Raised ex, _ => Raised ex
           end)
        (Returned project_list) entries =
  Returned (project_list ++
            ((λ kv : string * value,
                project_info kv.1 match kv.2 with VDict metadata => metadata | _ => [] end)
               <$> entries)).
Proof.
  intros Hall. revert project_list.
  induction Hall as [|[name [| | | | |metadata]] entries Hkv _ IH];
    intros project_list; try done.
  - simpl. by rewrite app_nil_r.
  - csimpl. rewrite IH. by rewrite <- app_assoc.
Qed.

(** [get_all_projects] on a registry that is absent or holds a dictionary,
    with a dictionary of metadata for every project: it lists the projects
    of the registry, one entry each, in the registry's order, every entry
    being the metadata with the project's name added.  Without a registry
    file the list is empty. *)
Theorem get_all_projects_lists_registry d :
  (∀ f, registry_file d = Some f → is_dict (read_json_file f) = true) →
  Forall (λ kv : string * value, is_dict kv.2 = true) (registry_projects d) →
  get_all_projects d =
    Returned ((λ kv : string * value,
                 project_info kv.1
                   match kv.2 with VDict metadata => metadata | _ => [] end)
                <$> registry_projects d) ∧
  (registry_file d = None → get_all_projects d = Returned []).
Proof.
  unfold get_all_projects, registry_projects. intros Hdict Hall.
  destruct (registry_file d) as [f|]; [|done].
  specialize (Hdict f eq_refl).
  destruct (read_json_file f) as [| | | | |registry]; try done.
  split; [|done].
  destruct (dict_get "projects" registry) as [[| | | | |entries]|]; try done.
  by rewrite get_all_projects_fold.
Qed.

Lemma get_all_projects_lists_registry_witness :
  get_all_projects
    (update_project_registry demo_disk "demo" [("status", VStr "initialized")]).2 =
  Returned [VDict [("project_name", VStr "demo"); ("status", VStr "initialized")]].
Proof.
  apply (get_all_projects_lists_registry
           (update_project_registry demo_disk "demo" [("status", VStr "initialized")]).2).
  - intros f [= <-]. reflexivity.
  - repeat constructor.
Defined.

End FileManager.

(* ================================================================== *)
(** ** The subscriber hub ([utils/broadcast_manager.py]) *)
(* ================================================================== *)

Module BroadcastManager.
Import Json FileManager.

(** A websocket handle. *)
Definition client : Type := nat.

(** One [client.send(...)] as the network saw it: the peer, the message
    and whether the send went through. *)
Record attempt : Type := Attempt {
  peer : client;
  payload : value;
  delivered : bool
}.

(** The module globals: the set of registered handles, the last marker
    version the watcher adopted, and the log of sends made so far. *)
Record manager : Type := Manager {
  connected_frontends : gset client;
  _last_known_version : Z;
  wire : list attempt
}.

Definition initial_manager : manager := Manager ∅ 0 [].

(** The messages a peer has received. *)
Definition received (c : client) (m : manager) : list value :=
  payload <$> List.filter (λ a, bool_decide (peer a = c) && delivered a) (wire m).

(** [connected_frontends.add(websocket)] on connect. *)
Definition register (websocket : client) (m : manager) : manager :=
  Manager ({[websocket]} ∪ connected_frontends m) (_last_known_version m) (wire m).

(** [connected_frontends.remove(websocket)] in the [finally] of the
    connection handler; [set.remove] raises [KeyError] on a missing
    element. *)
Definition unregister (websocket : client) (m : manager) : outcome unit * manager :=
  if bool_decide (websocket ∈ connected_frontends m) then
    (Returned (),
     Manager (connected_frontends m ∖ {[websocket]}) (_last_known_version m) (wire m))
  else (Raised (OtherError "KeyError"), m).

(** [await client.send(json.dumps(message))]: [link_up c] tells whether the
    connection to [c] still carries a frame. *)
Definition send (link_up : client → bool) (c : client) (message : value)
    : outcome unit * attempt :=
  if link_up c then (Returned (), Attempt c message true)
  else (Raised (OtherError "ConnectionClosed"), Attempt c message false).

(** [asyncio.gather] with its flag [return_exceptions], over the sends: every
    awaitable runs; with [return_exceptions] an exception is an item of the
    result list, without it the first one is raised to the caller. *)
Definition gather (return_exceptions : bool) (results : list (outcome unit))
    : outcome (list (outcome unit)) :=
  if return_exceptions then Returned results
  else
    match List.find (λ r, match r with Raised _ => true | Returned _ => false end)
                    results with
    | Some (Raised e) => Raised e
    | _ => Returned results
    end.

(** [broadcast_to_frontends(message)]. *)
Definition broadcast_to_frontends (link_up : client → bool) (message : value)
    (m : manager) : outcome unit * manager :=
  if bool_decide (connected_frontends m = ∅) then (Returned (), m)
  else
    let sends :=
      (λ c, send link_up c message) <$> elements (connected_frontends m) in
    match gather true (fst <$> sends) with
    | Returned _ =>
        (Returned (),
         Manager (connected_frontends m) (_last_known_version m)
                 (wire m ++ (snd <$> sends)))
    | Raised e =>
        (Raised e,
         Manager (connected_frontends m) (_last_known_version m)
                 (wire m ++ (snd <$> sends)))
    end.

(** One round of the [keep_alive] loop of a connection, after its
    [asyncio.sleep(30)]: the loop goes on after a successful ping, and ends
    ([break]) when the ping raises or the handle is no longer registered. *)
Inductive loop_control : Type := Continue | Break.

Definition keep_alive (link_up : client → bool) (websocket : client) (m : manager)
    : loop_control * manager :=
  if bool_decide (websocket ∈ connected_frontends m) then
    if link_up websocket then (Continue, m) else (Break, m)
  else (Break, m).

(** How [>] reads a marker version: integers and booleans are numbers,
    anything else makes the comparison raise [TypeError]. *)
Definition as_number (v : value) : option Z :=
  match v with
  | VInt n => Some n
  | VBool b => Some (if b then 1 else 0)%Z
  | _ => None
  end.

(** [current_project_info.get("version", 0)] as a number. *)
Definition marker_version (current_project_info : dict) : option Z :=
  as_number (dict_get_default "version" (VInt 0) current_project_info).

(** The event the watcher sends. *)
Definition project_switched_message (now : clock) (current_project_info : dict)
    (file_version : Z) (project_name : string) (project_files : dict) : value :=
  VDict [("type", VStr "project_switched");
         ("action", VStr "switch");
         ("force_update", VBool true);
         ("version", VInt file_version);
         ("timestamp",
          dict_get_default "timestamp" (VStr (isoformat now)) current_project_info);
         ("command", VStr "file_watcher");
         ("data",
          VDict [("project_name", VStr project_name);
                 ("requirements", dict_get_default "requirements" (VDict []) project_files);
                 ("ddd", dict_get_default "ddd" (VDict []) project_files);
                 ("frontend_data", dict_get_default "frontend_data" (VDict []) project_files);
                 ("technical_architecture",
                  dict_get_default "technical_architecture" (VDict []) project_files)])].

(** One round of the [while True] of [watch_current_project_file], after
    its [asyncio.sleep(0.5)].  An exception inside the round ([TypeError]
    on a version that is not a number, on a project name that is not a
    string, [AttributeError] on a marker that is not a dictionary) is caught
    by the loop and ends the round where it stands. *)
Definition watch_current_project_file (now : clock) (link_up : client → bool)
    (d : disk) (m : manager) : manager :=
  match read_current_project d with
  | VDict current_project_info =>
      if negb (truthy (VDict current_project_info))
         || negb (dict_has "project_name" current_project_info)
      then m
      else
        match marker_version current_project_info with
        | None => m
        | Some file_version =>
            if (file_version >? _last_known_version m)%Z then
              let m1 := Manager (connected_frontends m) file_version (wire m) in
              match dict_get "project_name" current_project_info with
              | Some (VStr project_name) =>
                  match read_project_files d project_name with
                  | Some project_files =>
                      if bool_decide (connected_frontends m = ∅) then m1
                      else
                        (broadcast_to_frontends link_up
                           (project_switched_message now current_project_info
                              file_version project_name project_files) m1).2
                  | None => m1
                  end
              | _ => m1
              end
            else m
        end
  | _ => m
  end.

(** What one round of the watcher observes. *)
Record observation : Type := Observation {
  obs_now : clock;
  obs_link_up : client → bool;
  obs_disk : disk
}.

(** The watcher loop over a sequence of rounds. *)
Definition run_watcher (rounds : list observation) (m : manager) : manager :=
  foldl (λ m o, watch_current_project_file (obs_now o) (obs_link_up o) (obs_disk o) m)
        m rounds.

(** [stop_websocket_server()]: every client is closed (the exceptions of
    the closes are gathered, not raised), the set is cleared, and the reply
    tells whether a server was running.  [websocket_server] is the module
    global, [true] while a server object is stored; the second component is
    its value after the call. *)
Definition stop_websocket_server (websocket_server : bool) (m : manager)
    : dict * bool * manager :=
  let m' :=
    if bool_decide (connected_frontends m = ∅) then m
    else Manager ∅ (_last_known_version m) (wire m) in
  if websocket_server then
    ([("status", VStr "stopped");
      ("message", VStr "WebSocket server stopped successfully")], false, m')
  else
    ([("status", VStr "not_running");
      ("message", VStr "WebSocket server was not running")], false, m').

(** *** Structural edits arriving on a connection *)








(** *** Broadcast *)

Lemma send_attempt link_up c message :
  (send link_up c message).2 = Attempt c message (link_up c).
Proof. unfold send. by destruct (link_up c). Qed.

Lemma broadcast_wire link_up message m :
  wire (broadcast_to_frontends link_up message m).2 =
  wire m ++ ((λ c, Attempt c message (link_up c)) <$> elements (connected_frontends m)).
Proof.
  unfold broadcast_to_frontends. case_bool_decide as Hempty.
  - rewrite Hempty, elements_empty. simpl. by rewrite app_nil_r.
  - simpl. f_equal. rewrite <- list_fmap_compose.
    apply list_fmap_ext. intros _ c _. apply send_attempt.
Qed.

Lemma broadcast_keeps_registered link_up message m :
  connected_frontends (broadcast_to_frontends link_up message m).2 =
  connected_frontends m.
Proof. unfold broadcast_to_frontends. by case_bool_decide. Qed.

Lemma broadcast_keeps_version link_up message m :
  _last_known_version (broadcast_to_frontends link_up message m).2 =
  _last_known_version m.
Proof. unfold broadcast_to_frontends. by case_bool_decide. Qed.

Lemma broadcast_returns link_up message m :
  (broadcast_to_frontends link_up message m).1 = Returned ().
Proof. unfold broadcast_to_frontends. by case_bool_decide. Qed.

(** What one peer gets out of one round of sends to distinct peers. *)
Lemma attempts_for_peer link_up message c (peers : list client) :
  NoDup peers →
  payload <$> List.filter (λ a, bool_decide (peer a = c) && delivered a)
                ((λ c', Attempt c' message (link_up c')) <$> peers) =
  if bool_decide (c ∈ peers) && link_up c then [message] else [].
Proof.
  induction 1 as [|c' peers Hnotin Hnd IH]; [done |]. csimpl.
  destruct (decide (c' = c)) as [->|Hne].
  - rewrite bool_decide_eq_true_2 by done.
    rewrite (bool_decide_eq_true_2 (c ∈ c :: peers)) by (apply elem_of_cons; by left).
    rewrite (bool_decide_eq_false_2 (c ∈ peers)) in IH by done. simpl in IH.
    destruct (link_up c); csimpl; by rewrite IH.
  - rewrite bool_decide_eq_false_2 by done. simpl. rewrite IH.
    destruct (decide (c ∈ peers)) as [Hin|Hout].
    + rewrite !bool_decide_eq_true_2; [done | by apply elem_of_cons; right | done].
    + rewrite !bool_decide_eq_false_2; [done | | done].
      intros [?|?]%elem_of_cons; congruence.
Qed.

Lemma broadcast_received link_up message m c :
  received c (broadcast_to_frontends link_up message m).2 =
  received c m ++
  (if bool_decide (c ∈ connected_frontends m) && link_up c then [message] else []).
Proof.
  unfold received at 1. rewrite broadcast_wire.
  rewrite List.filter_app, fmap_app. f_equal.
  rewrite attempts_for_peer by apply NoDup_elements.
  destruct (decide (c ∈ connected_frontends m)) as [Hin|Hout].
  - rewrite !bool_decide_eq_true_2; [done | done | by apply elem_of_elements].
  - rewrite !bool_decide_eq_false_2; [done | done | by rewrite elem_of_elements].
Qed.

(** C5. For every event, every set of registered subscribers and every
    way the connections may fail, [broadcast_to_frontends] returns normally
    (the exceptions of the sends are items of the gathered result, none
    reaches the caller); every registered subscriber whose connection is up
    has received the event, whatever happened to the others; a subscriber
    whose send failed, or that is not registered, has received nothing new;
    and with no subscriber registered the call changes nothing. *)
Theorem broadcast_isolates_failures link_up message m :
  (broadcast_to_frontends link_up message m).1 = Returned () ∧
  (∀ c, c ∈ connected_frontends m → link_up c = true →
        received c (broadcast_to_frontends link_up message m).2 =
        received c m ++ [message]) ∧
  (∀ c, c ∉ connected_frontends m ∨ link_up c = false →
        received c (broadcast_to_frontends link_up message m).2 = received c m) ∧
  (connected_frontends m = ∅ →
   broadcast_to_frontends link_up message m = (Returned (), m)).
Proof.
  split; [apply broadcast_returns |]. split; [| split].
  - intros c Hin Hup. rewrite broadcast_received, Hup.
    by rewrite bool_decide_eq_true_2.
  - intros c Hc. rewrite broadcast_received.
    destruct Hc as [Hout|Hdown].
    + rewrite bool_decide_eq_false_2 by done. simpl. apply app_nil_r.
    + rewrite Hdown, andb_false_r. apply app_nil_r.
  - intros Hempty. unfold broadcast_to_frontends.
    by rewrite bool_decide_eq_true_2.
Qed.

(** C8, as stated, fails: with subscribers 1 and 2 registered and the
    connection to 1 down, the send to 1 fails and 1 is still registered
    after the broadcast; and a failed probe of [keep_alive] ends the probe
    loop of 1 and leaves it registered as well. *)
Lemma failed_send_keeps_subscriber :
  let m := Manager {[1; 2]} 0 [] in
  let link_up := λ c : client, bool_decide (c = 2) in
  wire (broadcast_to_frontends link_up (VStr "event") m).2 =
    [Attempt 2 (VStr "event") true; Attempt 1 (VStr "event") false] ∧
  1 ∈ connected_frontends (broadcast_to_frontends link_up (VStr "event") m).2 ∧
  (keep_alive link_up 1 m).1 = Break ∧
  1 ∈ connected_frontends (keep_alive link_up 1 m).2.
Proof.
  intros m link_up. split; [| split; [| split]].
  - by vm_compute.
  - rewrite broadcast_keeps_registered. set_solver.
  - by vm_compute.
  - by vm_compute.
Qed.

(** C8, amended. A broadcast makes one send per registered subscriber, none
    is repeated, and whatever sends fail the registered set is the same
    after it.  A round of [keep_alive] never changes the registered set; a
    failed probe of a registered subscriber ends its probe loop.  A
    subscriber leaves the set when its connection handler ends
    ([unregister]), which removes that subscriber and no other; and
    [stop_websocket_server] empties the set. *)
Theorem failures_remove_no_subscriber link_up message websocket m :
  connected_frontends (broadcast_to_frontends link_up message m).2 =
    connected_frontends m ∧
  peer <$> drop (length (wire m)) (wire (broadcast_to_frontends link_up message m).2) =
    elements (connected_frontends m) ∧
  NoDup (elements (connected_frontends m)) ∧
  (keep_alive link_up websocket m).2 = m ∧
  (link_up websocket = false → (keep_alive link_up websocket m).1 = Break) ∧
  (websocket ∈ connected_frontends m →
   (unregister websocket m).1 = Returned () ∧
   connected_frontends (unregister websocket m).2 =
     connected_frontends m ∖ {[websocket]} ∧
   ∀ other, other ≠ websocket →
            (other ∈ connected_frontends (unregister websocket m).2 ↔
             other ∈ connected_frontends m)) ∧
  (∀ websocket_server,
      connected_frontends (stop_websocket_server websocket_server m).2 = ∅).
Proof.
  split; [apply broadcast_keeps_registered |].
  split; [| split; [apply NoDup_elements |]].
  - rewrite broadcast_wire, drop_app_length, <- list_fmap_compose.
    simpl. apply list_fmap_id.
  - unfold keep_alive, unregister.
    split; [| split; [| split]].
    + case_bool_decide; [by destruct (link_up websocket) | done].
    + intros ->. by case_bool_decide.
    + intros Hin. rewrite bool_decide_eq_true_2 by done. simpl.
      split; [done |]. split; [done |]. intros other Hne. set_solver.
    + intros websocket_server. unfold stop_websocket_server.
      by destruct websocket_server; case_bool_decide.
Qed.

(** *** The watcher *)

Lemma watch_round_cases now link_up d m :
  watch_current_project_file now link_up d m = m ∨
  ∃ info v,
    read_current_project d = VDict info ∧
    dict_has "project_name" info = true ∧
    marker_version info = Some v ∧
    (_last_known_version m < v)%Z ∧
    _last_known_version (watch_current_project_file now link_up d m) = v ∧
    connected_frontends (watch_current_project_file now link_up d m) =
      connected_frontends m.
Proof.
  unfold watch_current_project_file.
  destruct (read_current_project d) as [| | | | |info]; try by left.
  destruct (negb (truthy (VDict info)) || negb (dict_has "project_name" info))
    eqn:Hguard; [by left |].
  apply orb_false_iff in Hguard as [_ Hname]. apply negb_false_iff in Hname.
  destruct (marker_version info) as [v|] eqn:Hv; [|by left].
  destruct (v >? _last_known_version m)%Z eqn:Hgt; [|by left].
  right. exists info, v. apply Z.gtb_lt in Hgt.
  repeat (split; [done |]).
  destruct (dict_get "project_name" info) as [[| | |name| |]|]; try done.
  destruct (read_project_files d name); [|done].
  case_bool_decide; [done |].
  by rewrite broadcast_keeps_version, broadcast_keeps_registered.
Qed.

Lemma watch_round_monotone now link_up d m :
  (_last_known_version m ≤
   _last_known_version (watch_current_project_file now link_up d m))%Z.
Proof.
  destruct (watch_round_cases now link_up d m) as [->|(info & v & _ & _ & _ & Hlt & -> & _)];
    lia.
Qed.

Lemma run_watcher_monotone rounds m :
  (_last_known_version m ≤ _last_known_version (run_watcher rounds m))%Z.
Proof.
  unfold run_watcher. revert m.
  induction rounds as [|o rounds IH]; intros m; simpl; [lia |].
  etrans; [apply (watch_round_monotone (obs_now o) (obs_link_up o) (obs_disk o)) |].
  apply IH.
Qed.

(** C4. The watcher accepts markers monotonically.  In every round, for a
    marker record with version [v]: when [v] is at most the last version
    seen the round changes nothing (same last-seen version, same registered
    set, no send made); when [v] is greater the last version seen becomes
    [v].  Whatever the marker file holds, a round never lowers the last
    version seen, and neither does any sequence of rounds. *)
Theorem watcher_accepts_monotonically now link_up d m :
  (∀ info v,
      read_current_project d = VDict info →
      dict_has "project_name" info = true →
      marker_version info = Some v →
      ((v ≤ _last_known_version m)%Z →
       watch_current_project_file now link_up d m = m) ∧
      ((_last_known_version m < v)%Z →
       _last_known_version (watch_current_project_file now link_up d m) = v)) ∧
  (_last_known_version m ≤
   _last_known_version (watch_current_project_file now link_up d m))%Z ∧
  (∀ rounds,
      (_last_known_version m ≤ _last_known_version (run_watcher rounds m))%Z).
Proof.
  split; [| split; [apply watch_round_monotone | intros; apply run_watcher_monotone]].
  intros info v Hread Hname Hv.
  destruct (watch_round_cases now link_up d m)
    as [Hsame|(info' & v' & Hread' & _ & Hv' & Hlt & Hnew & _)].
  - split; [done |]. intros Hlt. exfalso.
    revert Hsame. unfold watch_current_project_file.
    rewrite Hread. unfold dict_has in Hname.
    destruct info as [|kv info]; [done |].
    simpl negb at 1. unfold dict_has.
    destruct (dict_get "project_name" (kv :: info)) as [name|] eqn:Hget; [|done].
    simpl orb. cbv iota. rewrite Hv.
    rewrite (proj2 (Z.gtb_lt _ _) Hlt).
    intros Hsame. apply (f_equal _last_known_version) in Hsame.
    assert (Hadopted : ∀ m', _last_known_version m' = v →
              m' = m → False) by (intros m' H1 H2; subst m'; lia).
    revert Hsame.
    destruct name as [| | |name| |]; simpl; try lia.
    destruct (read_project_files d name); simpl; [|lia].
    case_bool_decide; simpl; [lia |].
    rewrite broadcast_keeps_version. simpl. lia.
  - rewrite Hread in Hread'. injection Hread' as <-.
    rewrite Hv in Hv'. injection Hv' as <-.
    split; [lia | done].
Qed.

Lemma broadcast_isolates_failures_witness :
  let m := Manager {[1; 2]} 0 [] in
  let link_up := λ c : client, bool_decide (c = 2) in
  (broadcast_to_frontends link_up (VStr "event") m).1 = Returned () ∧
  received 2 (broadcast_to_frontends link_up (VStr "event") m).2 = [VStr "event"] ∧
  received 1 (broadcast_to_frontends link_up (VStr "event") m).2 = [].
Proof.
  intros m link_up.
  destruct (broadcast_isolates_failures link_up (VStr "event") m)
    as (Hreturns & Hup & Hdown & _).
  split; [exact Hreturns |]. split.
  - apply (Hup 2); [set_solver | reflexivity].
  - apply (Hdown 1). right. reflexivity.
Defined.

Lemma watcher_accepts_monotonically_witness :
  let now := Clock "2025-01-01T09:00:00" 1735722000000 in
  let marker := [("project_name", VStr "demo"); ("version", VInt 5)] in
  let d := Disk ∅ None (Some (FJson (VDict marker))) in
  watch_current_project_file now (λ _, true) d (Manager ∅ 5 []) = Manager ∅ 5 [] ∧
  _last_known_version
    (watch_current_project_file now (λ _, true) d (Manager ∅ 4 [])) = 5%Z.
Proof.
  intros now marker d. split.
  - destruct (watcher_accepts_monotonically now (λ _, true) d (Manager ∅ 5 []))
      as (Hround & _).
    apply (Hround marker 5%Z); [reflexivity | reflexivity | reflexivity |].
    simpl. lia.
  - destruct (watcher_accepts_monotonically now (λ _, true) d (Manager ∅ 4 []))
      as (Hround & _).
    apply (Hround marker 5%Z); [reflexivity | reflexivity | reflexivity |].
    simpl. lia.
Defined.

Lemma failures_remove_no_subscriber_witness :
  let m := Manager {[1; 2]} 0 [] in
  let link_up := λ c : client, bool_decide (c = 2) in
  connected_frontends (broadcast_to_frontends link_up (VStr "event") m).2 = {[1; 2]} ∧
  (keep_alive link_up 1 m).1 = Break ∧
  connected_frontends (unregister 1 m).2 = {[1; 2]} ∖ {[1]}.
Proof.
  intros m link_up.
  destruct (failures_remove_no_subscriber link_up (VStr "event") 1 m)
    as (Hsame & _ & _ & _ & Hprobe & Hleave).
  split; [exact Hsame |]. split; [exact (Hprobe eq_refl) |].
  apply Hleave. set_solver.
Defined.

(** *** More on the watcher *)

Lemma watch_round_old_marker now link_up d m info v :
  read_current_project d = VDict info →
  marker_version info = Some v →
  (v ≤ _last_known_version m)%Z →
  watch_current_project_file now link_up d m = m.
Proof.
  intros Hread Hv Hle. unfold watch_current_project_file. rewrite Hread.
  destruct (negb (truthy (VDict info)) || negb (dict_has "project_name" info));
    [done |].
  rewrite Hv, Z.gtb_ltb. by rewrite (proj2 (Z.ltb_ge _ _)).
Qed.

(** A marker is adopted once: a second round of the watcher over the same
    marker file changes nothing and sends nothing, whatever the clock and
    the connections are by then. *)
Theorem watcher_round_idempotent now link_up now' link_up' d m :
  watch_current_project_file now' link_up' d
    (watch_current_project_file now link_up d m) =
  watch_current_project_file now link_up d m.
Proof.
  destruct (watch_round_cases now link_up d m)
    as [Hsame|(info & v & Hread & _ & Hv & _ & Hnew & _)].
  - rewrite Hsame. revert Hsame. unfold watch_current_project_file.
    destruct (read_current_project d) as [| | | | |info] eqn:Hread; try done.
    destruct (negb (truthy (VDict info)) || negb (dict_has "project_name" info));
      [done |].
    destruct (marker_version info) as [v|]; [|done].
    destruct (v >? _last_known_version m)%Z eqn:Hgt; [|done].
    apply Z.gtb_lt in Hgt. intros Hsame.
    apply (f_equal _last_known_version) in Hsame. exfalso. revert Hsame.
    destruct (dict_get "project_name" info) as [[| | |name| |]|]; simpl; try lia.
    destruct (read_project_files d name); simpl; [|lia].
    case_bool_decide; simpl; [lia |].
    rewrite broadcast_keeps_version. simpl. lia.
  - apply (watch_round_old_marker _ _ _ _ info v); [done | done | lia].
Qed.

Lemma watcher_round_idempotent_witness :
  let d := write_current_project (Clock "2025-01-01T09:00:00" 5) demo_disk "demo" in
  let m := Manager {[1]} 0 [] in
  watch_current_project_file (Clock "t2" 9) (λ _, false) d
    (watch_current_project_file (Clock "t1" 7) (λ _, true) d m) =
  watch_current_project_file (Clock "t1" 7) (λ _, true) d m.
Proof. intros d m. apply watcher_round_idempotent. Defined.

Lemma watch_round_new_marker now link_up d m info v name project_files :
  read_current_project d = VDict info →
  dict_get "project_name" info = Some (VStr name) →
  marker_version info = Some v →
  (_last_known_version m < v)%Z →
  read_project_files d name = Some project_files →
  watch_current_project_file now link_up d m =
  if bool_decide (connected_frontends m = ∅)
  then Manager (connected_frontends m) v (wire m)
  else (broadcast_to_frontends link_up
          (project_switched_message now info v name project_files)
          (Manager (connected_frontends m) v (wire m))).2.
Proof.
  intros Hread Hname Hv Hlt Hfiles. unfold watch_current_project_file.
  rewrite Hread. unfold dict_has. rewrite Hname.
  destruct info as [|kv info]; [done |]. cbn [truthy negb orb].
  rewrite Hv, (proj2 (Z.gtb_lt _ _) Hlt), Hfiles. done.
Qed.

(** What one process writes, the watcher of another picks up.  After
    [write_current_project] has named a project that loads, one round of a
    watcher that has seen only older versions adopts the marker's version
    and makes one send of [project_switched] per registered subscriber,
    carrying that version, the marker's timestamp and the documents as they
    are on disk; the registered set is unchanged. *)
Theorem written_marker_reaches_watcher written d project_name project_files
    now link_up m :
  read_project_files d project_name = Some project_files →
  (_last_known_version m < millis written)%Z →
  let d' := write_current_project written d project_name in
  let m' := watch_current_project_file now link_up d' m in
  let event :=
    VDict [("type", VStr "project_switched");
           ("action", VStr "switch");
           ("force_update", VBool true);
           ("version", VInt (millis written));
           ("timestamp", VStr (isoformat written));
           ("command", VStr "file_watcher");
           ("data",
            VDict [("project_name", VStr project_name);
                   ("requirements", dict_get_default "requirements" (VDict []) project_files);
                   ("ddd", dict_get_default "ddd" (VDict []) project_files);
                   ("frontend_data", dict_get_default "frontend_data" (VDict []) project_files);
                   ("technical_architecture",
                    dict_get_default "technical_architecture" (VDict []) project_files)])] in
  _last_known_version m' = millis written ∧
  connected_frontends m' = connected_frontends m ∧
  wire m' =
    wire m ++ ((λ c, Attempt c event (link_up c)) <$> elements (connected_frontends m)).
Proof.
  intros Hfiles Hnewer d' m' event. subst d' m' event.
  rewrite (watch_round_new_marker now link_up
             (write_current_project written d project_name) m
             [("project_name", VStr project_name);
              ("timestamp", VStr (isoformat written));
              ("version", VInt (millis written))]
             (millis written) project_name project_files);
    try done.
  case_bool_decide as Hempty.
  - simpl. rewrite Hempty, elements_empty. simpl. by rewrite app_nil_r.
  - rewrite broadcast_keeps_version, broadcast_keeps_registered, broadcast_wire.
    done.
Qed.

Lemma written_marker_reaches_watcher_witness :
  let written := Clock "2025-01-01T09:00:00" 5 in
  let d := Disk {[ "demo" := {[ "requirement.js" := FJson (VDict []);
                                "ddd.js" := FJson (VDict []);
                                "frontend_data.js" := FJson (VDict []);
                                "technical_architecture.js" := FText "" ]} ]}
                None None in
  _last_known_version
    (watch_current_project_file (Clock "t" 9) (λ _, true)
       (write_current_project written d "demo") (Manager {[1]} 0 [])) = 5%Z.
Proof.
  intros written d.
  assert (Hfiles : is_Some (read_project_files d "demo")) by (by eexists).
  destruct Hfiles as [project_files Hfiles].
  apply (written_marker_reaches_watcher written d "demo" project_files
           (Clock "t" 9) (λ _, true) (Manager {[1]} 0 []) Hfiles).
  simpl. lia.
Defined.

(** *** Registration *)

(** A handle that registers and then leaves is gone, the other handles
    stay; leaving twice raises [KeyError] and changes nothing. *)
Theorem register_then_unregister websocket m :
  (unregister websocket (register websocket m)).1 = Returned () ∧
  connected_frontends (unregister websocket (register websocket m)).2 =
    connected_frontends m ∖ {[websocket]} ∧
  (∀ other, other ≠ websocket →
            (other ∈ connected_frontends (unregister websocket (register websocket m)).2
             ↔ other ∈ connected_frontends m)) ∧
  unregister websocket (unregister websocket (register websocket m)).2 =
    (Raised (OtherError "KeyError"),
     (unregister websocket (register websocket m)).2).
Proof.
  unfold unregister, register. simpl.
  rewrite bool_decide_eq_true_2 by set_solver. simpl.
  split; [done |]. split; [set_solver |]. split; [set_solver |].
  rewrite bool_decide_eq_false_2 by set_solver. done.
Qed.

(** After [stop_websocket_server] no subscriber is registered: a broadcast
    then sends nothing and returns, and the [finally] of a connection
    handler that ends afterwards finds its handle gone ([KeyError]).  The
    reply says [stopped] when a server was running and [not_running]
    otherwise; nothing is sent and the watcher's version is kept. *)
Theorem stop_websocket_server_clears websocket_server m link_up message websocket :
  let stopped := stop_websocket_server websocket_server m in
  connected_frontends stopped.2 = ∅ ∧
  stopped.1.2 = false ∧
  dict_get "status" stopped.1.1 =
    Some (VStr (if websocket_server then "stopped" else "not_running")) ∧
  wire stopped.2 = wire m ∧
  _last_known_version stopped.2 = _last_known_version m ∧
  broadcast_to_frontends link_up message stopped.2 = (Returned (), stopped.2) ∧
  unregister websocket stopped.2 = (Raised (OtherError "KeyError"), stopped.2).
Proof.
  intros stopped. subst stopped. unfold stop_websocket_server.
  assert (Hempty : connected_frontends
            (if bool_decide (connected_frontends m = ∅) then m
             else Manager ∅ (_last_known_version m) (wire m)) = ∅)
    by (by case_bool_decide).
  destruct websocket_server; cbn [fst snd];
    (split; [exact Hempty |]; split; [done |]; split; [done |];
     split; [by case_bool_decide |]; split; [by case_bool_decide |]; split;
     [ unfold broadcast_to_frontends; by rewrite bool_decide_eq_true_2
     | unfold unregister; rewrite Hempty; by rewrite bool_decide_eq_false_2 ]).
Qed.

(** *** Structural edits *)



Lemma write_project_file_fields project_name file_type f d :
  registry_file (write_project_file project_name file_type f d) = registry_file d ∧
  current_project_file (write_project_file project_name file_type f d) =
    current_project_file d.
Proof. unfold write_project_file. by destruct (projects d !! project_name). Qed.









End BroadcastManager.

(* ================================================================== *)
(** ** The state store and the command handlers ([server_mcp_sdk.py]) *)
(* ================================================================== *)

Module Server.
Import Json Merge FileManager BroadcastManager.

(** The global dictionary [current_project_data], one field per key. *)
Record project_state : Type := ProjectState {
  project_name : string;
  requirements : value;
  ddd : value;
  frontend_data : value;
  technical_architecture : value;
  summary : value;
  version : Z;
  last_updated : string;
  last_command : string
}.

(** The process: the state store with its counter [state_version], the
    copy [set_current_project_data] keeps in the broadcast manager, the
    disk, the hub, and the snapshot [last_broadcast_data] the periodic task
    remembers. *)
Record server : Type := Server {
  current_project_data : project_state;
  state_version : Z;
  broadcast_copy : project_state;
  storage : disk;
  hub : manager;
  last_broadcast_data : value
}.

Definition initial_state : project_state :=
  ProjectState "" (VDict []) (VDict []) (VDict []) (VDict []) (VStr "") 0 "" "".

Definition initial_server (d : disk) : server :=
  Server initial_state 0 initial_state d initial_manager VNone.

(** What the world decides during one command or one round of a task: the
    clock, which connections carry a frame, how the black-box React step
    ends ([react_info], or an exception), whether a directory can be
    removed, and [json.loads] on a string payload. *)
Record env : Type := Env {
  now : clock;
  pretty_date : string;
  link_up : client → bool;
  react : outcome dict;
  removable : bool;
  json_loads : string → option value
}.

(** The tool calls, with arguments typed as the [inputSchema] of each
    tool types them; [None] is an absent argument. *)
Inductive command : Type :=
| host_tool (project_name : option string)
| update_project_files (project_name file_type : option string)
    (update_data : option value) (merge_strategy : option string)
| get_project_data
| select_project (project_name : option string)
| delete_project (project_name : option string).

(** [s.replace(old, new)] for a non-empty [old]. *)
Fixpoint str_replace_from (old new : string) (skip : nat) (s : string) : string :=
  match s with
  | EmptyString => EmptyString
  | String c rest =>
      match skip with
      | S k => str_replace_from old new k rest
      | O =>
          if String.prefix old s
          then new +:+ str_replace_from old new (String.length old - 1) rest
          else String c (str_replace_from old new 0 rest)
      end
  end.

Definition str_replace (old new s : string) : string :=
  str_replace_from old new 0 s.

(** [s.isalnum()] on ASCII text. *)
Definition is_alnum_char (c : Ascii.ascii) : bool :=
  let n := Ascii.nat_of_ascii c in
  ((48 <=? n) && (n <=? 57) || (65 <=? n) && (n <=? 90)
   || (97 <=? n) && (n <=? 122))%nat.

Fixpoint all_alnum (s : string) : bool :=
  match s with
  | EmptyString => true
  | String c rest => is_alnum_char c && all_alnum rest
  end.

Definition isalnum (s : string) : bool :=
  negb (String.eqb s "") && all_alnum s.

Definition error_reply (message : string) : dict :=
  [("status", VStr "error"); ("error", VStr message)].

Definition opt_name (previous_project : string) (is_project_switch : bool) : value :=
  if is_project_switch then VStr previous_project else VNone.

(** The documents of a new project. *)
Definition new_requirements (project_name : string) (now : clock) : value :=
  VDict [("project_name", VStr project_name);
         ("requirements", VList []); ("user_flows", VList []);
         ("features", VList []); ("pages", VList []);
         ("created_at", VStr (isoformat now))].

Definition new_ddd : value :=
  VDict [("bounded_contexts", VList []); ("entities", VList []);
         ("value_objects", VList []); ("aggregates", VList []);
         ("services", VList []); ("repositories", VList []);
         ("domain_events", VList [])].

Definition new_frontend_data : value :=
  VDict [("pages", VList []);
         ("theme", VDict [("colors", VDict []); ("fonts", VDict [])]);
         ("interactions", VList [])].

Definition new_technical_architecture : value :=
  VDict [("architecture_patterns", VList []);
         ("technology_stack",
          VDict [("frontend", VList []); ("backend", VList []);
                 ("database", VList []); ("infrastructure", VList [])]);
         ("system_components", VList []);
         ("api_design",
          VDict [("rest_endpoints", VList []); ("graphql_schema", VList []);
                 ("websocket_events", VList [])]);
         ("data_models", VList []);
         ("security",
          VDict [("authentication", VList []); ("authorization", VList []);
                 ("encryption", VList [])]);
         ("deployment",
          VDict [("environments", VList []); ("ci_cd", VList []);
                 ("monitoring", VList [])]);
         ("scalability",
          VDict [("caching_strategy", VList []); ("load_balancing", VList []);
                 ("database_optimization", VList [])])].

(** The generated [summary.md]; [pretty_date] is the [strftime] rendering
    of the clock. *)
Definition double_quote : string := String (Ascii.ascii_of_nat 34) EmptyString.

Definition new_summary (project_name pretty_date : string) : string :=
  "# " +:+ project_name +:+ "

## Project Summary

**Created:** " +:+ pretty_date +:+ "

This is a project summary file that serves as a conversational digest of the project.

## Overview

Project '" +:+ project_name +:+ "' has been initialized with the following structure:
- Requirements gathering system
- User flow definitions
- Feature specifications
- Page layouts
- Domain-driven design components
- Frontend data management
- Technical architecture planning

## Status

Status: Initialized
Last Updated: " +:+ pretty_date +:+ "

---

*This file can be updated using the update_project_files tool with file_type="
  +:+ double_quote +:+ "summary.md" +:+ double_quote +:+ "*
".

(** The [data] part of the events that carry the four documents. *)
Definition documents_data (project_name : string) (requirements ddd frontend_data
    technical_architecture : value) : value :=
  VDict [("project_name", VStr project_name);
         ("requirements", requirements);
         ("ddd", ddd);
         ("frontend_data", frontend_data);
         ("technical_architecture", technical_architecture)].

Definition state_data (st : project_state) : value :=
  documents_data (project_name st) (requirements st) (ddd st) (frontend_data st)
                 (technical_architecture st).

(** A reply of a handler: the [result] dictionary it returns, or the
    exception it lets through. *)
Abbreviation reply := (outcome dict).

(** [{..., **react_info}]. *)
Definition with_react_info (result react_info : dict) : dict :=
  foldl (λ acc kv, dict_set kv.1 kv.2 acc) result react_info.

(** [current_project_data[file_key] = updated_data] for the five document
    keys. *)
Definition set_document (file_key : string) (v : value) (st : project_state)
    : project_state :=
  if String.eqb file_key "requirements" then
    ProjectState (project_name st) v (ddd st) (frontend_data st)
      (technical_architecture st) (summary st) (version st) (last_updated st)
      (last_command st)
  else if String.eqb file_key "ddd" then
    ProjectState (project_name st) (requirements st) v (frontend_data st)
      (technical_architecture st) (summary st) (version st) (last_updated st)
      (last_command st)
  else if String.eqb file_key "frontend_data" then
    ProjectState (project_name st) (requirements st) (ddd st) v
      (technical_architecture st) (summary st) (version st) (last_updated st)
      (last_command st)
  else if String.eqb file_key "technical_architecture" then
    ProjectState (project_name st) (requirements st) (ddd st) (frontend_data st)
      v (summary st) (version st) (last_updated st) (last_command st)
  else if String.eqb file_key "summary" then
    ProjectState (project_name st) (requirements st) (ddd st) (frontend_data st)
      (technical_architecture st) v (version st) (last_updated st)
      (last_command st)
  else st.

(** [file_type.replace(".js", "").replace(".md", "")], with [requirement]
    made plural. *)
Definition file_key_of (file_type : string) : string :=
  let file_key := str_replace ".md" "" (str_replace ".js" "" file_type) in
  if String.eqb file_key "requirement" then "requirements" else file_key.

Definition all_files : value :=
  VList [VStr "requirement.js"; VStr "ddd.js"; VStr "frontend_data.js";
         VStr "technical_architecture.js"; VStr "summary.md"].

(** *** [handle_host_tool] *)

Definition handle_host_tool (e : env) (argument : option string) (s : server)
    : reply * server :=
  let previous_project := project_name (current_project_data s) in
  match argument with
  | None => (Returned (error_reply "project_name is required"), s)
  | Some name =>
      if String.eqb name "" then
        (Returned (error_reply "project_name is required"), s)
      else if negb (isalnum (str_replace "_" "" name)) then
        (Returned (error_reply "project_name must be alphanumeric with underscores only"), s)
      else if project_exists (storage s) name then
        (Returned (error_reply ("Project '" +:+ name +:+ "' already exists")), s)
      else
        match react e with
        | Raised ex => (Returned (error_reply (exn_message ex)), s)
        | Returned react_info =>
            let requirements_data := new_requirements name (now e) in
            let summary_content := new_summary name (pretty_date e) in
            let d1 := create_project_directory (storage s) name in
            let d2 := write_project_file name "requirement.js" (FJson requirements_data) d1 in
            let d3 := write_project_file name "ddd.js" (FJson new_ddd) d2 in
            let d4 := write_project_file name "frontend_data.js" (FJson new_frontend_data) d3 in
            let d5 := write_project_file name "technical_architecture.js"
                        (FJson new_technical_architecture) d4 in
            let d6 := write_project_file name "summary.md" (FText summary_content) d5 in
            match update_project_registry d6 name
                    [("created_at", VStr (isoformat (now e)));
                     ("last_updated", VStr (isoformat (now e)));
                     ("status", VStr "initialized")] with
            | (Raised ex, d7) =>
                (Returned (error_reply (exn_message ex)),
                 Server (current_project_data s) (state_version s) (broadcast_copy s)
                        d7 (hub s) (last_broadcast_data s))
            | (Returned _, d7) =>
                let state_version' := (state_version s + 1)%Z in
                let timestamp := isoformat (now e) in
                let data :=
                  ProjectState name requirements_data new_ddd new_frontend_data
                    new_technical_architecture (VStr summary_content)
                    state_version' timestamp "host_tool" in
                let d8 := write_current_project (now e) d7 name in
                let is_project_switch :=
                  negb (String.eqb previous_project "")
                  && negb (String.eqb previous_project name) in
                let broadcast_message :=
                  VDict [("type", VStr (if is_project_switch then "project_switched"
                                        else "project_initialized"));
                         ("action", VStr "create");
                         ("force_update", VBool true);
                         ("version", VInt state_version');
                         ("timestamp", VStr timestamp);
                         ("command", VStr "host_tool");
                         ("previous_project", opt_name previous_project is_project_switch);
                         ("data", state_data data)] in
                let sent := broadcast_to_frontends (link_up e) broadcast_message (hub s) in
                let s' := Server data state_version' data d8 sent.2 (last_broadcast_data s) in
                match sent.1 with
                | Raised ex => (Returned (error_reply (exn_message ex)), s')
                | Returned _ =>
                    (Returned
                       (with_react_info
                          [("status", VStr "success");
                           ("message", VStr ("Project '" +:+ name
                                             +:+ "' initialized successfully"));
                           ("project_name", VStr name);
                           ("files_created", all_files);
                           ("project_path", VStr ("projects/" +:+ name))]
                          react_info),
                     s')
                end
            end
        end
  end.

(** *** [handle_update_project_files] *)

(** The three [except] clauses of the handler. *)
Definition update_error_reply (ex : exn) : dict :=
  match ex with
  | ValueError message | FileNotFoundError message => error_reply message
  | OtherError message => error_reply ("Failed to update file: " +:+ message)
  end.

Definition handle_update_project_files (e : env)
    (project_name_arg file_type_arg : option string)
    (update_data_arg : option value) (merge_strategy_arg : option string)
    (s : server) : reply * server :=
  let merge_strategy := default "merge" merge_strategy_arg in
  (* a string payload for a JSON file is parsed first *)
  let converted : outcome (option value) :=
    match file_type_arg, update_data_arg with
    | Some file_type, Some (VStr text) =>
        if negb (String.eqb file_type "") && negb (endswith file_type ".md") then
          match json_loads e text with
          | Some parsed => Returned (Some parsed)
          | None => Raised (ValueError "Invalid JSON in update_data")
          end
        else Returned update_data_arg
    | _, _ => Returned update_data_arg
    end in
  match converted with
  | Raised ex => (Returned (error_reply (exn_message ex)), s)
  | Returned update_data_opt =>
      match project_name_arg, file_type_arg, update_data_opt with
      | None, _, _ | Some "", _, _ =>
          (Returned (error_reply "project_name is required"), s)
      | Some _, None, _ | Some _, Some "", _ =>
          (Returned (error_reply "file_type is required"), s)
      | Some _, Some _, None =>
          (Returned (error_reply "update_data is required"), s)
      | Some name, Some file_type, Some update_data =>
          if negb (truthy update_data) then
            (Returned (error_reply "update_data is required"), s)
          else if negb (bool_decide (file_type ∈ VALID_FILE_TYPES)) then
            (Returned (error_reply ("Invalid file_type '" +:+ file_type +:+ "'")), s)
          else if negb (project_exists (storage s) name) then
            (Returned (error_reply ("Project '" +:+ name +:+ "' does not exist")), s)
          else
            match update_json_file (storage s) name file_type update_data
                    merge_strategy with
            | (Raised ex, _) => (Returned (update_error_reply ex), s)
            | (Returned updated_data, d1) =>
                let state_version' := (state_version s + 1)%Z in
                let timestamp := isoformat (now e) in
                let st := set_document (file_key_of file_type) updated_data
                            (current_project_data s) in
                let data :=
                  ProjectState name (requirements st) (ddd st) (frontend_data st)
                    (technical_architecture st) (summary st)
                    state_version' timestamp "update_project_files" in
                let d2 := write_current_project (now e) d1 name in
                match update_project_registry d2 name
                        [("last_updated", VStr timestamp);
                         ("status", VStr "updated")] with
                | (Raised ex, d3) =>
                    (Returned (update_error_reply ex),
                     Server data state_version' data d3 (hub s) (last_broadcast_data s))
                | (Returned _, d3) =>
                    let broadcast_message :=
                      VDict [("type", VStr "files_updated");
                             ("action", VStr "update");
                             ("force_update", VBool true);
                             ("version", VInt state_version');
                             ("timestamp", VStr timestamp);
                             ("command", VStr "update_project_files");
                             ("updated_file", VStr file_type);
                             ("merge_strategy", VStr merge_strategy);
                             ("data", state_data data)] in
                    let sent :=
                      broadcast_to_frontends (link_up e) broadcast_message (hub s) in
                    let s' := Server data state_version' data d3 sent.2
                                (last_broadcast_data s) in
                    match sent.1 with
                    | Raised ex => (Returned (update_error_reply ex), s')
                    | Returned _ =>
                        (Returned
                           [("status", VStr "success");
                            ("message", VStr ("Successfully updated " +:+ file_type
                                              +:+ " in project '" +:+ name +:+ "'"));
                            ("project_name", VStr name);
                            ("file_type", VStr file_type);
                            ("merge_strategy", VStr merge_strategy);
                            ("updated_data", updated_data)],
                         s')
                    end
                end
            end
      end
  end.

(** *** [handle_get_project_data] *)

Definition handle_get_project_data (s : server) : reply * server :=
  let data := current_project_data s in
  if String.eqb (project_name data) "" then
    (Returned [("status", VStr "no_project");
               ("message", VStr "No project is currently being broadcast");
               ("project_name", VStr "");
               ("requirements", VDict []); ("ddd", VDict []);
               ("frontend_data", VDict []); ("technical_architecture", VDict []);
               ("summary", VStr "")], s)
  else
    (Returned [("status", VStr "success");
               ("project_name", VStr (project_name data));
               ("requirements", requirements data); ("ddd", ddd data);
               ("frontend_data", frontend_data data);
               ("technical_architecture", technical_architecture data);
               ("summary", summary data)], s).

(** *** [handle_select_project] *)

Definition handle_select_project (e : env) (argument : option string) (s : server)
    : reply * server :=
  let previous_project := project_name (current_project_data s) in
  match argument with
  | None => (Returned (error_reply "project_name is required"), s)
  | Some name =>
      if String.eqb name "" then
        (Returned (error_reply "project_name is required"), s)
      else if negb (project_exists (storage s) name) then
        (Returned (error_reply ("Project '" +:+ name +:+ "' does not exist")), s)
      else
        match react e with
        | Raised ex => (Returned (error_reply (exn_message ex)), s)
        | Returned react_info =>
            match read_project_files (storage s) name with
            | None =>
                (Returned (error_reply ("Failed to load project files for '"
                                        +:+ name +:+ "'")), s)
            | Some project_files =>
                let state_version' := (state_version s + 1)%Z in
                let timestamp := isoformat (now e) in
                let data :=
                  ProjectState name
                    (dict_get_default "requirements" (VDict []) project_files)
                    (dict_get_default "ddd" (VDict []) project_files)
                    (dict_get_default "frontend_data" (VDict []) project_files)
                    (dict_get_default "technical_architecture" (VDict []) project_files)
                    (dict_get_default "summary" (VStr "") project_files)
                    state_version' timestamp "select_project" in
                let d1 := write_current_project (now e) (storage s) name in
                let is_project_switch :=
                  negb (String.eqb previous_project "")
                  && negb (String.eqb previous_project name) in
                let broadcast_message :=
                  VDict [("type", VStr (if is_project_switch then "project_switched"
                                        else "project_initialized"));
                         ("action", VStr (if is_project_switch then "switch"
                                          else "initialize"));
                         ("force_update", VBool true);
                         ("version", VInt state_version');
                         ("timestamp", VStr timestamp);
                         ("command", VStr "select_project");
                         ("previous_project", opt_name previous_project is_project_switch);
                         ("data", state_data data)] in
                let sent := broadcast_to_frontends (link_up e) broadcast_message (hub s) in
                let s' := Server data state_version' data d1 sent.2 (last_broadcast_data s) in
                match sent.1 with
                | Raised ex => (Returned (error_reply (exn_message ex)), s')
                | Returned _ =>
                    (Returned
                       (with_react_info
                          [("status", VStr "success");
                           ("message", VStr ("Project '" +:+ name
                                             +:+ "' selected and loaded successfully"));
                           ("project_name", VStr name);
                           ("files_loaded", all_files);
                           ("requirements", requirements data);
                           ("ddd", ddd data);
                           ("frontend_data", frontend_data data);
                           ("technical_architecture", technical_architecture data);
                           ("summary", summary data)]
                          react_info),
                     s')
                end
            end
        end
  end.

(** *** [handle_delete_project] *)

Definition cleared_state (state_version' : Z) (timestamp : string) : project_state :=
  ProjectState "" (VDict []) (VDict []) (VDict []) (VDict []) (VStr "")
    state_version' timestamp "delete_project".

Definition project_deleted_message (state_version' : Z) (timestamp name : string)
    : value :=
  VDict [("type", VStr "project_deleted");
         ("action", VStr "delete");
         ("force_update", VBool true);
         ("version", VInt state_version');
         ("timestamp", VStr timestamp);
         ("command", VStr "delete_project");
         ("data",
          VDict [("project_name", VStr name);
                 ("message", VStr ("Project '" +:+ name +:+ "' has been deleted"))])].

(** [is_active_project]: the project is the one loaded here, or the one
    the shared marker file names. *)
Definition is_active_project (s : server) (shared_project_info : dict)
    (name : string) : bool :=
  let is_active_project_local :=
    String.eqb (project_name (current_project_data s)) name in
  let is_active_project_shared :=
    py_eq (dict_get_default "project_name" VNone shared_project_info) (VStr name) in
  is_active_project_local || is_active_project_shared.

Definition handle_delete_project (e : env) (argument : option string) (s : server)
    : reply * server :=
  match argument with
  | None => (Returned (error_reply "project_name is required"), s)
  | Some name =>
      if String.eqb name "" then
        (Returned (error_reply "project_name is required"), s)
      else if negb (project_exists (storage s) name) then
        (Returned (error_reply ("Project '" +:+ name +:+ "' does not exist")), s)
      else
        match read_current_project (storage s) with
        | VDict shared_project_info =>
            let active := is_active_project s shared_project_info name in
            (* Step 1: the directory *)
            match delete_project_directory (removable e) (storage s) name with
            | (Raised (ValueError message), _) =>
                (Returned (error_reply message), s)
            | (step1, d1) =>
                let folder_deleted := is_returned step1 in
                let errors1 :=
                  match step1 with
                  | Returned _ => []
                  | Raised ex => ["Folder deletion failed: " +:+ exn_message ex]
                  end in
                (* Step 2: the registry, whatever step 1 did *)
                let step2 := remove_from_registry d1 name in
                let d2 := step2.2 in
                let registry_updated := is_returned step2.1 in
                let errors :=
                  errors1 ++
                  match step2.1 with
                  | Returned _ => []
                  | Raised ex => ["Registry update failed: " +:+ exn_message ex]
                  end in
                (* Step 3: clear the state store and tell the frontends *)
                let cleared : outcome unit * server :=
                  if active && (folder_deleted || registry_updated) then
                    let state_version' := (state_version s + 1)%Z in
                    let timestamp := isoformat (now e) in
                    let data := cleared_state state_version' timestamp in
                    let d3 := write_current_project (now e) d2 "" in
                    let sent :=
                      broadcast_to_frontends (link_up e)
                        (project_deleted_message state_version' timestamp name) (hub s) in
                    (sent.1,
                     Server data state_version' data d3 sent.2 (last_broadcast_data s))
                  else
                    (Returned (),
                     Server (current_project_data s) (state_version s) (broadcast_copy s)
                            d2 (hub s) (last_broadcast_data s)) in
                (* Step 4: the reply *)
                match cleared.1 with
                | Raised ex => (Raised ex, cleared.2)
                | Returned _ =>
                    if folder_deleted && registry_updated then
                      (Returned
                         [("status", VStr "success");
                          ("message", VStr ("Project '" +:+ name
                                            +:+ "' deleted successfully (folder + registry)"));
                          ("project_name", VStr name);
                          ("was_active", VBool active);
                          ("frontend_cleared", VBool active);
                          ("folder_deleted", VBool true);
                          ("registry_updated", VBool true)],
                       cleared.2)
                    else if registry_updated && negb folder_deleted then
                      (Returned
                         [("status", VStr "partial_success");
                          ("message", VStr ("Project '" +:+ name
                                            +:+ "' removed from registry, but folder deletion failed"));
                          ("project_name", VStr name);
                          ("was_active", VBool active);
                          ("frontend_cleared", VBool active);
                          ("folder_deleted", VBool false);
                          ("registry_updated", VBool true);
                          ("errors", VList (VStr <$> errors));
                          ("note", VStr "You may need to manually delete the folder")],
                       cleared.2)
                    else
                      (Returned
                         [("status", VStr "error");
                          ("error", VStr ("Failed to delete project: "
                                          +:+ String.concat "; " errors));
                          ("project_name", VStr name);
                          ("folder_deleted", VBool folder_deleted);
                          ("registry_updated", VBool registry_updated);
                          ("errors", VList (VStr <$> errors))],
                       cleared.2)
                end
            end
        | _ =>
            (* [shared_project_info.get] on a marker that is not a dictionary *)
            (Raised (OtherError "object has no attribute 'get'"), s)
        end
  end.

(** *** [periodic_broadcast] *)

(** One round of the [while True], after its [asyncio.sleep(10)]. *)
Definition periodic_broadcast (e : env) (s : server) : server :=
  let data := current_project_data s in
  if String.eqb (project_name data) "" then s
  else
    match read_project_files (storage s) (project_name data) with
    | None => s
    | Some updated_data =>
        let name := project_name data in
        let current_snapshot :=
          documents_data name
            (dict_get_default "requirements" (VDict []) updated_data)
            (dict_get_default "ddd" (VDict []) updated_data)
            (dict_get_default "frontend_data" (VDict []) updated_data)
            (dict_get_default "technical_architecture" (VDict []) updated_data) in
        if negb (same_dump current_snapshot (last_broadcast_data s)) then
          let data' :=
            ProjectState name
              (dict_get_default "requirements" (VDict []) updated_data)
              (dict_get_default "ddd" (VDict []) updated_data)
              (dict_get_default "frontend_data" (VDict []) updated_data)
              (dict_get_default "technical_architecture" (VDict []) updated_data)
              (summary data) (version data) (last_updated data) (last_command data) in
          let sent :=
            broadcast_to_frontends (link_up e)
              (VDict [("type", VStr "project_initialized");
                      ("data",
                       VDict [("project_name", VStr name);
                              ("requirements", requirements data');
                              ("ddd", ddd data');
                              ("frontend_data", frontend_data data');
                              ("technical_architecture", technical_architecture data');
                              ("timestamp", VStr (isoformat (now e)))])])
              (hub s) in
          Server data' (state_version s) data' (storage s) sent.2
            match sent.1 with
            | Returned _ => current_snapshot
            | Raised _ => last_broadcast_data s
            end
        else s
    end.

(** *** The process as a transition system *)

Definition call_tool (e : env) (c : command) (s : server) : reply * server :=
  match c with
  | host_tool name => handle_host_tool e name s
  | update_project_files name file_type update_data merge_strategy =>
      handle_update_project_files e name file_type update_data merge_strategy s
  | get_project_data => handle_get_project_data s
  | select_project name => handle_select_project e name s
  | delete_project name => handle_delete_project e name s
  end.

(** What the scheduler runs next: a tool call, a round of the periodic
    task, a round of the watcher. *)
Inductive event : Type :=
| Call (c : command)
| PeriodicRound
| WatcherRound.

Definition step (s : server) (ee : env * event) : server :=
  match ee.2 with
  | Call c => (call_tool ee.1 c s).2
  | PeriodicRound => periodic_broadcast ee.1 s
  | WatcherRound =>
      Server (current_project_data s) (state_version s) (broadcast_copy s)
        (storage s)
        (watch_current_project_file (now ee.1) (link_up ee.1) (storage s) (hub s))
        (last_broadcast_data s)
  end.

Definition run (events : list (env * event)) (s : server) : server :=
  foldl step s events.

(** A call that changed the state store tells so in its reply: creation,
    update and selection by the status [success], deletion by
    [was_active]. *)
Definition status_of (r : reply) : value :=
  match r with
  | Returned result => dict_get_default "status" VNone result
  | Raised _ => VNone
  end.

Definition reports_mutation (c : command) (r : reply) : bool :=
  match c, r with
  | get_project_data, _ => false
  | delete_project _, Returned result =>
      py_eq (dict_get_default "was_active" (VBool false) result) (VBool true)
  | _, Returned result =>
      py_eq (dict_get_default "status" VNone result) (VStr "success")
  | _, Raised _ => false
  end.

(** *** Scenarios the code is run on *)

Definition quiet (iso : string) (ms : Z) : env :=
  Env (Clock iso ms) "January 01, 2025 at 09:00 AM" (λ _, true)
      (Returned [("react_server", VStr "already_running")]) true (λ _, None).

Definition morning : env := quiet "2025-01-01T09:00:00" 1735722000000.
Definition noon : env := quiet "2025-01-01T12:00:00" 1735732800000.

Definition empty_disk : disk := Disk ∅ None None.

(** A process that created project [demo1]. *)
Definition demo1_loaded : server :=
  (call_tool morning (host_tool (Some "demo1")) (initial_server empty_disk)).2.

(** The same process after [requirement.js] was edited on disk by hand. *)
Definition demo1_edited_outside : server :=
  Server (current_project_data demo1_loaded) (state_version demo1_loaded)
    (broadcast_copy demo1_loaded)
    (write_project_file "demo1" "requirement.js"
       (FJson (VDict [("features", VList [VStr "offline"])]))
       (storage demo1_loaded))
    (hub demo1_loaded) (last_broadcast_data demo1_loaded).

(** Two processes on one disk: the first created [alpha] and still has it
    loaded, a second one, started later, created [beta], which the marker
    file now names. *)
Definition first_process : server :=
  (call_tool morning (host_tool (Some "alpha")) (initial_server empty_disk)).2.

Definition second_process : server :=
  (call_tool noon (host_tool (Some "beta")) (initial_server (storage first_process))).2.

Definition first_process_later : server :=
  Server (current_project_data first_process) (state_version first_process)
    (broadcast_copy first_process) (storage second_process)
    (Manager {[7]} 0 []) (last_broadcast_data first_process).

Definition login_update : command :=
  update_project_files (Some "demo1") (Some "requirement.js")
    (Some (VDict [("features", VList [VStr "login"])])) (Some "merge").

(** The two things a call can do to the state store. *)
Definition unchanged (s s' : server) : Prop :=
  state_version s' = state_version s ∧
  current_project_data s' = current_project_data s.

Definition bumped (e : env) (s s' : server) : Prop :=
  state_version s' = (state_version s + 1)%Z ∧
  version (current_project_data s') = state_version s' ∧
  last_updated (current_project_data s') = isoformat (now e).

(** All the calls of a sequence report a mutation. *)
Fixpoint all_mutate (calls : list (env * command)) (s : server) : bool :=
  match calls with
  | [] => true
  | (e, c) :: rest =>
      reports_mutation c (call_tool e c s).1 && all_mutate rest (call_tool e c s).2
  end.

Definition as_calls (calls : list (env * command)) : list (env * event) :=
  (λ ec : env * command, (ec.1, Call ec.2)) <$> calls.

(** What every handler re-establishes: [set_current_project_data] has
    copied the state store, and [version] is the counter. *)
Definition consistent (s : server) : Prop :=
  broadcast_copy s = current_project_data s ∧
  version (current_project_data s) = state_version s ∧
  (0 ≤ state_version s)%Z.

(** The directory [handle_host_tool] leaves for a new project. *)
Definition new_project_directory (e : env) (name : string) : gmap string file :=
  <["summary.md" := FText (new_summary name (pretty_date e))]>
    (<["technical_architecture.js" := FJson new_technical_architecture]>
       (<["frontend_data.js" := FJson new_frontend_data]>
          (<["ddd.js" := FJson new_ddd]>
             {["requirement.js" := FJson (new_requirements name (now e))]}))).

Ltac case_split :=
  repeat (cbn [fst snd]; rewrite ?broadcast_returns;
          match goal with
          | |- context [match ?x with _ => _ end] => destruct x eqn:?
          end).

Ltac settle :=
  simpl;
  first
    [ by (split; [left; split; reflexivity | intros H; vm_compute in H; discriminate H])
    | by (split; [left; split; reflexivity | intros H; discriminate H])
    | by (split; [right; repeat split; reflexivity | intros _; repeat split; reflexivity]) ].

Lemma host_tool_effect e argument s :
  (unchanged s (handle_host_tool e argument s).2 ∨
   bumped e s (handle_host_tool e argument s).2) ∧
  (reports_mutation (host_tool argument) (handle_host_tool e argument s).1 = true →
   bumped e s (handle_host_tool e argument s).2).
Proof.
  unfold handle_host_tool, unchanged, bumped, reports_mutation, error_reply.
  cbv zeta. case_split; settle.
Qed.

Lemma update_project_files_effect e name file_type update_data merge_strategy s :
  (unchanged s (handle_update_project_files e name file_type update_data merge_strategy s).2 ∨
   bumped e s (handle_update_project_files e name file_type update_data merge_strategy s).2) ∧
  (reports_mutation (update_project_files name file_type update_data merge_strategy)
     (handle_update_project_files e name file_type update_data merge_strategy s).1 = true →
   bumped e s (handle_update_project_files e name file_type update_data merge_strategy s).2).
Proof.
  unfold handle_update_project_files, unchanged, bumped, reports_mutation,
    error_reply, update_error_reply.
  cbv zeta. case_split; settle.
Qed.

Lemma select_project_effect e argument s :
  (unchanged s (handle_select_project e argument s).2 ∨
   bumped e s (handle_select_project e argument s).2) ∧
  (reports_mutation (select_project argument) (handle_select_project e argument s).1 = true →
   bumped e s (handle_select_project e argument s).2).
Proof.
  unfold handle_select_project, unchanged, bumped, reports_mutation, error_reply.
  cbv zeta. case_split; settle.
Qed.

Lemma get_project_data_effect s :
  unchanged s (handle_get_project_data s).2.
Proof. unfold handle_get_project_data, unchanged. by case_split. Qed.

Lemma delete_project_effect e argument s :
  (unchanged s (handle_delete_project e argument s).2 ∨
   bumped e s (handle_delete_project e argument s).2) ∧
  (reports_mutation (delete_project argument) (handle_delete_project e argument s).1 = true →
   bumped e s (handle_delete_project e argument s).2).
Proof.
  unfold handle_delete_project, unchanged, bumped, reports_mutation, error_reply.
  destruct argument as [name|]; [|settle].
  destruct (String.eqb name ""); [settle |].
  destruct (project_exists (storage s) name) eqn:Hexists; [|settle].
  cbn [negb].
  destruct (read_current_project (storage s)) as [| | | | |info]; try settle.
  unfold delete_project_directory. rewrite Hexists. cbn [negb].
  destruct (removable e); cbv zeta; cbn [fst snd is_returned orb andb negb app];
    destruct (remove_from_registry _ name) as [[ok|ex] d2];
    cbn [fst snd is_returned orb andb negb app];
    destruct (is_active_project s info name);
    cbn [fst snd is_returned orb andb negb app];
    rewrite ?broadcast_returns; settle.
Qed.

Lemma call_tool_effect e c s :
  (unchanged s (call_tool e c s).2 ∨ bumped e s (call_tool e c s).2) ∧
  (reports_mutation c (call_tool e c s).1 = true → bumped e s (call_tool e c s).2).
Proof.
  destruct c; simpl call_tool.
  - apply host_tool_effect.
  - apply update_project_files_effect.
  - split; [left; apply get_project_data_effect | done].
  - apply select_project_effect.
  - apply delete_project_effect.
Qed.

(** A round of the periodic task leaves the counter and the audit fields
    alone. *)
Lemma periodic_broadcast_keeps_version e s :
  state_version (periodic_broadcast e s) = state_version s ∧
  version (current_project_data (periodic_broadcast e s)) =
    version (current_project_data s) ∧
  last_updated (current_project_data (periodic_broadcast e s)) =
    last_updated (current_project_data s) ∧
  last_command (current_project_data (periodic_broadcast e s)) =
    last_command (current_project_data s).
Proof. unfold periodic_broadcast. cbv zeta. by case_split. Qed.

Lemma step_version s ee :
  (state_version s ≤ state_version (step s ee) ≤ state_version s + 1)%Z.
Proof.
  destruct ee as [e [c| |]]; unfold step; simpl.
  - destruct (call_tool_effect e c s) as [[[-> _]|[-> _]] _]; lia.
  - destruct (periodic_broadcast_keeps_version e s) as [-> _]. lia.
  - lia.
Qed.

Lemma run_version events s :
  (state_version s ≤ state_version (run events s)
   ≤ state_version s + Z.of_nat (length events))%Z.
Proof.
  unfold run. revert s. induction events as [|ee events IH]; intros s.
  - simpl. lia.
  - simpl foldl. specialize (IH (step s ee)).
    pose proof (step_version s ee). simpl length. lia.
Qed.

Lemma run_all_mutate calls s :
  all_mutate calls s = true →
  state_version (run (as_calls calls) s) =
  (state_version s + Z.of_nat (length calls))%Z.
Proof.
  unfold run, as_calls. revert s.
  induction calls as [|[e c] calls IH]; intros s Hall.
  - simpl. lia.
  - simpl in Hall. apply andb_true_iff in Hall as [Hc Hrest].
    csimpl. unfold step at 2. simpl.
    rewrite (IH _ Hrest).
    destruct (call_tool_effect e c s) as [_ Hbump].
    destruct (Hbump Hc) as [-> _]. lia.
Qed.

(** C1 fails on the code, in the periodic task: with [demo1] loaded and
    [requirement.js] edited on disk, one round of [periodic_broadcast]
    replaces the requirements held in the state store and leaves
    [state_version], [version] and [last_updated] as they were, where every
    command handler that stores documents increases the counter. *)
Lemma periodic_round_changes_documents_without_bump :
  requirements (current_project_data demo1_edited_outside) =
    new_requirements "demo1" (now morning) ∧
  requirements (current_project_data (periodic_broadcast noon demo1_edited_outside)) =
    VDict [("features", VList [VStr "offline"])] ∧
  requirements (current_project_data (periodic_broadcast noon demo1_edited_outside)) ≠
    requirements (current_project_data demo1_edited_outside) ∧
  state_version (periodic_broadcast noon demo1_edited_outside) =
    state_version demo1_edited_outside ∧
  version (current_project_data (periodic_broadcast noon demo1_edited_outside)) =
    version (current_project_data demo1_edited_outside) ∧
  last_updated (current_project_data (periodic_broadcast noon demo1_edited_outside)) =
    last_updated (current_project_data demo1_edited_outside).
Proof.
  vm_compute. repeat split; try reflexivity. discriminate.
Qed.

(** The version counter under tool calls and background rounds.  Every
    tool call either leaves the state store as it was
    (same counter, same documents) or increases [state_version] by exactly
    1, sets [version] to it and stamps [last_updated] with the clock; a
    call that reports a mutation (status [success] of a creation, update or
    selection, [was_active] of a deletion) is of the second kind.  A round
    of the periodic task never changes [state_version], [version],
    [last_updated] or [last_command].  Over any sequence of calls and
    background rounds the counter never decreases and grows by at most 1
    per step, and over a sequence of calls that all report a mutation it
    grows by exactly the number of calls. *)
Theorem version_counts_mutating_commands :
  (∀ e c s,
      (unchanged s (call_tool e c s).2 ∨ bumped e s (call_tool e c s).2) ∧
      (reports_mutation c (call_tool e c s).1 = true →
       bumped e s (call_tool e c s).2)) ∧
  (∀ e s,
      state_version (periodic_broadcast e s) = state_version s ∧
      version (current_project_data (periodic_broadcast e s)) =
        version (current_project_data s) ∧
      last_updated (current_project_data (periodic_broadcast e s)) =
        last_updated (current_project_data s) ∧
      last_command (current_project_data (periodic_broadcast e s)) =
        last_command (current_project_data s)) ∧
  (∀ events s,
      (state_version s ≤ state_version (run events s)
       ≤ state_version s + Z.of_nat (length events))%Z) ∧
  (∀ calls s,
      all_mutate calls s = true →
      state_version (run (as_calls calls) s) =
      (state_version s + Z.of_nat (length calls))%Z).
Proof.
  split; [apply call_tool_effect |].
  split; [apply periodic_broadcast_keeps_version |].
  split; [apply run_version | apply run_all_mutate].
Qed.

Lemma version_counts_mutating_commands_witness :
  let calls := [(morning, host_tool (Some "demo1")); (noon, login_update);
                (noon, login_update)] in
  all_mutate calls (initial_server empty_disk) = true ∧
  state_version (run (as_calls calls) (initial_server empty_disk)) = 3%Z.
Proof.
  intros calls.
  assert (Hall : all_mutate calls (initial_server empty_disk) = true)
    by (vm_compute; reflexivity).
  split; [exact Hall |].
  destruct version_counts_mutating_commands as (_ & _ & _ & Hexact).
  exact (Hexact calls (initial_server empty_disk) Hall).
Defined.

(** *** Deletion *)

Lemma is_active_project_iff s info name :
  is_active_project s info name = true ↔
  project_name (current_project_data s) = name ∨
  dict_get "project_name" info = Some (VStr name).
Proof.
  unfold is_active_project, dict_get_default.
  rewrite orb_true_iff, String.eqb_eq.
  apply or_iff_compat_l.
  destruct (dict_get "project_name" info) as [[| | |other| |]|]; simpl;
    try (split; [discriminate | intros [=]]).
  rewrite bool_decide_eq_true. split; [by intros -> | by intros [= ->]].
Qed.

(** C9, as stated, fails: the first process has [alpha] loaded, the marker
    file names [beta]; deleting [beta], which is not the project loaded
    here, empties the state store, bumps the version and sends
    [project_deleted]. *)
Lemma deleting_other_project_clears_state :
  let after := (call_tool noon (delete_project (Some "beta")) first_process_later).2 in
  project_name (current_project_data first_process_later) = "alpha" ∧
  project_name (current_project_data after) = "" ∧
  requirements (current_project_data after) ≠
    requirements (current_project_data first_process_later) ∧
  state_version after = (state_version first_process_later + 1)%Z ∧
  received 7 (hub after) =
    [project_deleted_message 2 (isoformat (now noon)) "beta"].
Proof.
  vm_compute. repeat split; try reflexivity. discriminate.
Qed.

(** C9, amended.  For an existing project, and a marker file that holds a
    dictionary or is absent, the project counts as active when it is the
    one loaded in this process or the one the shared marker file names.
    - Deleting an active project empties the state store (no name, empty
      documents), increases the version by exactly 1 and sends one
      [project_deleted] event to every registered subscriber.  This does
      not depend on what became of the directory or of the registry entry:
      [delete_project_directory] returns for every existing project, so
      the handler always takes the folder as deleted.
    - Deleting a project that is not active leaves the state store, its
      copy and the hub as they were: no field changes, no version bump,
      nothing is sent. *)
Theorem delete_project_clears_active_only e name s info :
  String.eqb name "" = false →
  project_exists (storage s) name = true →
  read_current_project (storage s) = VDict info →
  let after := (handle_delete_project e (Some name) s).2 in
  let event :=
    project_deleted_message (state_version s + 1) (isoformat (now e)) name in
  (is_active_project s info name = true ↔
   project_name (current_project_data s) = name ∨
   dict_get "project_name" info = Some (VStr name)) ∧
  (is_active_project s info name = true →
   current_project_data after =
     cleared_state (state_version s + 1) (isoformat (now e)) ∧
   state_version after = (state_version s + 1)%Z ∧
   wire (hub after) =
     wire (hub s) ++
     ((λ c, Attempt c event (link_up e c)) <$> elements (connected_frontends (hub s)))) ∧
  (is_active_project s info name = false →
   current_project_data after = current_project_data s ∧
   state_version after = state_version s ∧
   broadcast_copy after = broadcast_copy s ∧
   hub after = hub s).
Proof.
  intros Hname Hexists Hmarker after event.
  split; [apply is_active_project_iff |].
  subst after event.
  unfold handle_delete_project. rewrite Hname, Hexists, Hmarker. cbn [negb].
  unfold delete_project_directory. rewrite Hexists. cbn [negb].
  destruct (removable e); cbv zeta; cbn [fst snd is_returned orb andb negb app];
    destruct (remove_from_registry _ name) as [[ok|ex] d2];
    cbn [fst snd is_returned orb andb negb app];
    destruct (is_active_project s info name);
    cbn [fst snd is_returned orb andb negb app];
    rewrite ?broadcast_returns; cbn [fst snd];
    (split; [intros H | intros H]); try discriminate H;
    cbn [current_project_data state_version broadcast_copy hub];
    rewrite ?broadcast_wire; done.
Qed.

Lemma delete_project_clears_active_only_witness :
  let after := (handle_delete_project noon (Some "demo1") demo1_loaded).2 in
  current_project_data after = cleared_state 2 (isoformat (now noon)) ∧
  state_version after = 2%Z.
Proof.
  intros after.
  assert (Hmarker : read_current_project (storage demo1_loaded) =
            VDict [("project_name", VStr "demo1");
                   ("timestamp", VStr (isoformat (now morning)));
                   ("version", VInt (millis (now morning)))])
    by (vm_compute; reflexivity).
  assert (Hexists : project_exists (storage demo1_loaded) "demo1" = true)
    by (vm_compute; reflexivity).
  destruct (delete_project_clears_active_only noon "demo1" demo1_loaded _
              eq_refl Hexists Hmarker) as (_ & Hactive & _).
  assert (Hcond :
    is_active_project demo1_loaded
      [("project_name", VStr "demo1");
       ("timestamp", VStr (isoformat (now morning)));
       ("version", VInt (millis (now morning)))] "demo1" = true)
    by (vm_compute; reflexivity).
  destruct (Hactive Hcond) as (Hstate & Hversion & _).
  split; [exact Hstate | exact Hversion].
Defined.

(** *** Calls that are refused *)

(** A call on a project that does not exist is refused with status
    [error] and leaves the process as it was: state store, counter, disk
    and hub.  This holds for selection, for deletion and for an update
    with any file type, payload and strategy, whichever of the earlier
    checks of the handler (a missing name, payload or file type) answers
    first. *)
Theorem call_on_missing_project_refused e s name :
  project_exists (storage s) name = false →
  (∃ message, handle_select_project e (Some name) s =
              (Returned (error_reply message), s)) ∧
  (∃ message, handle_delete_project e (Some name) s =
              (Returned (error_reply message), s)) ∧
  (∀ file_type update_data merge_strategy,
      ∃ message,
        handle_update_project_files e (Some name) file_type update_data
          merge_strategy s = (Returned (error_reply message), s)).
Proof.
  intros Hmissing. split; [| split].
  - unfold handle_select_project. rewrite Hmissing.
    destruct (String.eqb name ""); by eexists.
  - unfold handle_delete_project. rewrite Hmissing.
    destruct (String.eqb name ""); by eexists.
  - intros file_type update_data merge_strategy.
    unfold handle_update_project_files. cbv zeta.
    repeat (cbn [fst snd negb]; rewrite ?Hmissing;
            match goal with
            | |- context [match ?x with _ => _ end] => destruct x eqn:?
            end);
      by eexists.
Qed.

Lemma call_on_missing_project_refused_witness :
  ∃ message, handle_select_project morning (Some "ghost") demo1_loaded =
             (Returned (error_reply message), demo1_loaded).
Proof.
  refine (proj1 (call_on_missing_project_refused morning demo1_loaded "ghost" _)).
  reflexivity.
Defined.

(** *** Invariants of a run *)

Ltac settle_consistent :=
  cbn [fst snd current_project_data state_version broadcast_copy version];
  first [ assumption | (repeat split; try reflexivity; lia) ].

Lemma host_tool_consistent e argument s :
  consistent s → consistent (handle_host_tool e argument s).2.
Proof.
  unfold consistent. intros (Hcopy & Hversion & Hpos).
  assert (Hs : broadcast_copy s = current_project_data s ∧
               version (current_project_data s) = state_version s ∧
               (0 ≤ state_version s)%Z) by done.
  unfold handle_host_tool. cbv zeta. case_split; settle_consistent.
Qed.

Lemma update_project_files_consistent e name file_type update_data merge_strategy s :
  consistent s →
  consistent (handle_update_project_files e name file_type update_data merge_strategy s).2.
Proof.
  unfold consistent. intros (Hcopy & Hversion & Hpos).
  assert (Hs : broadcast_copy s = current_project_data s ∧
               version (current_project_data s) = state_version s ∧
               (0 ≤ state_version s)%Z) by done.
  unfold handle_update_project_files. cbv zeta. case_split; settle_consistent.
Qed.

Lemma select_project_consistent e argument s :
  consistent s → consistent (handle_select_project e argument s).2.
Proof.
  unfold consistent. intros (Hcopy & Hversion & Hpos).
  assert (Hs : broadcast_copy s = current_project_data s ∧
               version (current_project_data s) = state_version s ∧
               (0 ≤ state_version s)%Z) by done.
  unfold handle_select_project. cbv zeta. case_split; settle_consistent.
Qed.

Lemma delete_project_consistent e argument s :
  consistent s → consistent (handle_delete_project e argument s).2.
Proof.
  unfold consistent. intros (Hcopy & Hversion & Hpos).
  assert (Hs : broadcast_copy s = current_project_data s ∧
               version (current_project_data s) = state_version s ∧
               (0 ≤ state_version s)%Z) by done.
  unfold handle_delete_project.
  destruct argument as [name|]; [|settle_consistent].
  destruct (String.eqb name ""); [settle_consistent |].
  destruct (project_exists (storage s) name) eqn:Hexists; [|settle_consistent].
  cbn [negb].
  destruct (read_current_project (storage s)) as [| | | | |info]; try settle_consistent.
  unfold delete_project_directory. rewrite Hexists. cbn [negb].
  destruct (removable e); cbv zeta; cbn [fst snd is_returned orb andb negb app];
    destruct (remove_from_registry _ name) as [[ok|ex] d2];
    cbn [fst snd is_returned orb andb negb app];
    destruct (is_active_project s info name);
    cbn [fst snd is_returned orb andb negb app];
    rewrite ?broadcast_returns; settle_consistent.
Qed.

Lemma periodic_broadcast_consistent e s :
  consistent s → consistent (periodic_broadcast e s).
Proof.
  unfold consistent. intros (Hcopy & Hversion & Hpos).
  assert (Hs : broadcast_copy s = current_project_data s ∧
               version (current_project_data s) = state_version s ∧
               (0 ≤ state_version s)%Z) by done.
  unfold periodic_broadcast. cbv zeta. case_split; settle_consistent.
Qed.

Lemma step_consistent s ee : consistent s → consistent (step s ee).
Proof.
  destruct ee as [e [[name|name file_type update_data merge_strategy| |name|name]| |]];
    unfold step; cbn [fst snd call_tool].
  - apply host_tool_consistent.
  - apply update_project_files_consistent.
  - unfold handle_get_project_data. by case_split.
  - apply select_project_consistent.
  - apply delete_project_consistent.
  - apply periodic_broadcast_consistent.
  - done.
Qed.

(** From the start of the process on, after any sequence of tool calls and
    background rounds: the copy the broadcast manager keeps agrees with the
    state store on the project name and the five documents, the [version]
    field of the state store is the counter [state_version], and the
    counter is not negative. *)
Theorem run_keeps_store_consistent events d :
  let s := run events (initial_server d) in
  let store := current_project_data s in
  let copy := broadcast_copy s in
  (project_name copy = project_name store ∧
   requirements copy = requirements store ∧
   ddd copy = ddd store ∧
   frontend_data copy = frontend_data store ∧
   technical_architecture copy = technical_architecture store ∧
   summary copy = summary store) ∧
  version store = state_version s ∧
  (0 ≤ state_version s)%Z.
Proof.
  intros s store copy. subst store copy s.
  assert (Hrun : consistent (run events (initial_server d))).
  { assert (Hstart : consistent (initial_server d)) by (by repeat split).
    revert Hstart. generalize (initial_server d). unfold run.
    induction events as [|ee events IH]; intros s Hs; [done |].
    simpl. apply IH. by apply step_consistent. }
  destruct Hrun as (-> & Hversion & Hpos). by repeat split.
Qed.

(** *** The periodic task *)

Lemma same_dump_dict d e :
  same_dump (VDict d) (VDict e) =
  Nat.eqb (length d) (length e) &&
  forallb (λ kv, match dict_get kv.1 e with
                 | Some w => same_dump kv.2 w
                 | None => false
                 end) d.
Proof.
  simpl. f_equal. induction d as [|[k x] l IH]; simpl; [done |].
  destruct (dict_get k e); [by rewrite IH | done].
Qed.

Lemma same_dump_list_same items :
  Forall (λ x, same_dump x x = true) items →
  same_dump (VList items) (VList items) = true.
Proof.
  simpl. induction 1 as [|x l Hx _ IH]; [done |].
  by rewrite Hx, IH.
Qed.

Lemma same_dump_refl v : wf_value v = true → same_dump v v = true.
Proof.
  induction v as [| b | n | s | items IH | entries IH]
    using value_ind; intros Hwf.
  - done.
  - by apply bool_decide_eq_true.
  - apply Z.eqb_refl.
  - by apply bool_decide_eq_true.
  - apply wf_list_iff in Hwf. apply same_dump_list_same.
    rewrite Forall_forall in *. auto.
  - apply wf_dict_iff in Hwf as [Hnd Hwf].
    rewrite same_dump_dict, Nat.eqb_refl. simpl.
    apply forallb_forall. intros [k x] Hin. simpl.
    apply list_elem_of_In in Hin.
    rewrite (dict_get_elem k x entries Hnd Hin).
    rewrite Forall_forall in IH. rewrite Forall_forall in Hwf.
    apply (IH _ Hin (Hwf _ Hin)).
Qed.

Lemma documents_data_wf name project_files :
  Forall (λ kv : string * value, wf_value kv.2 = true) project_files →
  wf_value
    (documents_data name
       (dict_get_default "requirements" (VDict []) project_files)
       (dict_get_default "ddd" (VDict []) project_files)
       (dict_get_default "frontend_data" (VDict []) project_files)
       (dict_get_default "technical_architecture" (VDict []) project_files)) = true.
Proof.
  intros Hall.
  assert (Hget : ∀ key, wf_value (dict_get_default key (VDict []) project_files) = true).
  { intros key. unfold dict_get_default.
    destruct (dict_get key project_files) as [v|] eqn:Hkey; [|done].
    by apply (dict_get_Forall (λ x, wf_value x = true) key v project_files). }
  unfold documents_data. apply wf_dict_iff. split; [compute_done |].
  repeat constructor; simpl; apply Hget.
Qed.

Lemma periodic_broadcast_changed e s project_files :
  String.eqb (project_name (current_project_data s)) "" = false →
  read_project_files (storage s) (project_name (current_project_data s)) =
    Some project_files →
  same_dump
    (documents_data (project_name (current_project_data s))
       (dict_get_default "requirements" (VDict []) project_files)
       (dict_get_default "ddd" (VDict []) project_files)
       (dict_get_default "frontend_data" (VDict []) project_files)
       (dict_get_default "technical_architecture" (VDict []) project_files))
    (last_broadcast_data s) = false →
  ∃ hub',
    periodic_broadcast e s =
    Server
      (ProjectState (project_name (current_project_data s))
         (dict_get_default "requirements" (VDict []) project_files)
         (dict_get_default "ddd" (VDict []) project_files)
         (dict_get_default "frontend_data" (VDict []) project_files)
         (dict_get_default "technical_architecture" (VDict []) project_files)
         (summary (current_project_data s)) (version (current_project_data s))
         (last_updated (current_project_data s))
         (last_command (current_project_data s)))
      (state_version s)
      (ProjectState (project_name (current_project_data s))
         (dict_get_default "requirements" (VDict []) project_files)
         (dict_get_default "ddd" (VDict []) project_files)
         (dict_get_default "frontend_data" (VDict []) project_files)
         (dict_get_default "technical_architecture" (VDict []) project_files)
         (summary (current_project_data s)) (version (current_project_data s))
         (last_updated (current_project_data s))
         (last_command (current_project_data s)))
      (storage s) hub'
      (documents_data (project_name (current_project_data s))
         (dict_get_default "requirements" (VDict []) project_files)
         (dict_get_default "ddd" (VDict []) project_files)
         (dict_get_default "frontend_data" (VDict []) project_files)
         (dict_get_default "technical_architecture" (VDict []) project_files)).
Proof.
  intros Hname Hfiles Hsame. unfold periodic_broadcast. cbv zeta.
  rewrite Hname, Hfiles, Hsame. cbn [negb].
  rewrite broadcast_returns. by eexists.
Qed.

(** The periodic task broadcasts a change once.  When the documents on
    disk are dictionaries the interpreter can hold, a round that follows
    another round over the same disk does nothing: no send, no change of
    the state store. *)
Theorem periodic_broadcast_settles e e' s :
  (∀ project_files,
      read_project_files (storage s) (project_name (current_project_data s)) =
        Some project_files →
      Forall (λ kv : string * value, wf_value kv.2 = true) project_files) →
  periodic_broadcast e' (periodic_broadcast e s) = periodic_broadcast e s.
Proof.
  intros Hwf.
  destruct (String.eqb (project_name (current_project_data s)) "") eqn:Hname.
  { unfold periodic_broadcast at 2. rewrite Hname.
    unfold periodic_broadcast. by rewrite Hname. }
  destruct (read_project_files (storage s) (project_name (current_project_data s)))
    as [project_files|] eqn:Hfiles.
  2: { unfold periodic_broadcast at 2. rewrite Hname, Hfiles.
       unfold periodic_broadcast. by rewrite Hname, Hfiles. }
  specialize (Hwf project_files eq_refl).
  destruct (same_dump
              (documents_data (project_name (current_project_data s))
                 (dict_get_default "requirements" (VDict []) project_files)
                 (dict_get_default "ddd" (VDict []) project_files)
                 (dict_get_default "frontend_data" (VDict []) project_files)
                 (dict_get_default "technical_architecture" (VDict []) project_files))
              (last_broadcast_data s)) eqn:Hsame.
  - unfold periodic_broadcast at 2. cbv zeta. rewrite Hname, Hfiles, Hsame.
    cbn [negb]. unfold periodic_broadcast. cbv zeta.
    by rewrite Hname, Hfiles, Hsame.
  - destruct (periodic_broadcast_changed e s project_files Hname Hfiles Hsame)
      as [hub' ->].
    unfold periodic_broadcast. cbv zeta.
    cbn [current_project_data project_name storage last_broadcast_data].
    rewrite Hname, Hfiles.
    by rewrite (same_dump_refl _ (documents_data_wf _ _ Hwf)).
Qed.

Lemma periodic_broadcast_settles_witness :
  periodic_broadcast noon (periodic_broadcast morning demo1_edited_outside) =
  periodic_broadcast morning demo1_edited_outside.
Proof.
  apply periodic_broadcast_settles.
  intros project_files Hfiles. vm_compute in Hfiles.
  injection Hfiles as <-. by repeat constructor.
Defined.

(** *** What a deletion reports *)

Lemma remove_from_registry_projects d project_name :
  projects (remove_from_registry d project_name).2 = projects d.
Proof.
  unfold remove_from_registry.
  repeat (match goal with
          | |- context [match ?x with _ => _ end] => destruct x eqn:?
          end; simpl);
    done.
Qed.

(** The reply of [delete_project] on a project that exists, the marker
    file holding a dictionary or being absent.  The handler never answers
    [partial_success]: [delete_project_directory] returns for every
    existing project, so the reply reports the folder as deleted whatever
    became of the directory, and its status follows the registry alone,
    [success] when the registry listed the project and [error] when it
    did not. *)
Theorem delete_project_outcome e s name shared_project_info :
  String.eqb name "" = false →
  project_exists (storage s) name = true →
  read_current_project (storage s) = VDict shared_project_info →
  let registered := dict_has name (registry_projects (storage s)) in
  ∃ result,
    (handle_delete_project e (Some name) s).1 = Returned result ∧
    dict_get "status" result =
      Some (VStr (if registered then "success" else "error")) ∧
    dict_get "folder_deleted" result = Some (VBool true) ∧
    dict_get "registry_updated" result = Some (VBool registered).
Proof.
  intros Hname Hexists Hshared registered. subst registered.
  unfold handle_delete_project. rewrite Hname, Hexists, Hshared. cbn [negb].
  unfold delete_project_directory. rewrite Hexists. cbn [negb].
  assert (Hsame : ∀ p, registry_projects (set_projects p (storage s)) =
                       registry_projects (storage s)) by done.
  destruct (removable e) eqn:Hremovable; cbv zeta; cbn [fst snd is_returned];
    rewrite remove_from_registry_returns, ?Hsame;
    destruct (dict_has name (registry_projects _)) eqn:Hreg;
    cbn [orb andb negb];
    destruct (is_active_project s shared_project_info name);
    cbn [orb andb negb fst snd]; rewrite ?broadcast_returns; cbn [fst snd];
    eexists; (split; [reflexivity |]); by repeat split.
Qed.

Lemma delete_project_outcome_witness :
  ∃ result,
    (handle_delete_project (Env (now morning) (pretty_date morning) (link_up morning)
                              (react morning) false (json_loads morning))
       (Some "demo1") demo1_loaded).1 = Returned result ∧
    dict_get "status" result = Some (VStr "success") ∧
    dict_get "folder_deleted" result = Some (VBool true) ∧
    dict_get "registry_updated" result = Some (VBool true).
Proof.
  refine (delete_project_outcome
            (Env (now morning) (pretty_date morning) (link_up morning)
               (react morning) false (json_loads morning))
            demo1_loaded "demo1" _ _ _ _);
    reflexivity.
Defined.

(** *** Creating and loading a project *)

Lemma update_project_registry_projects d project_name metadata :
  projects (update_project_registry d project_name metadata).2 = projects d.
Proof.
  unfold update_project_registry.
  repeat (match goal with
          | |- context [match ?x with _ => _ end] => destruct x eqn:?
          end; simpl);
    done.
Qed.

Lemma host_tool_projects e s name react_info :
  String.eqb name "" = false →
  isalnum (str_replace "_" "" name) = true →
  project_exists (storage s) name = false →
  react e = Returned react_info →
  projects (storage (handle_host_tool e (Some name) s).2) =
  <[name := new_project_directory e name]> (projects (storage s)).
Proof.
  intros Hname Halnum Hfresh Hreact.
  assert (Hnone : projects (storage s) !! name = None).
  { unfold project_exists in Hfresh. apply bool_decide_eq_false in Hfresh.
    by apply eq_None_not_Some. }
  unfold handle_host_tool. rewrite Hname, Halnum, Hfresh, Hreact. cbv zeta.
  cbn [negb].
  match goal with
  | |- context [update_project_registry ?d ?n ?m] =>
      pose proof (update_project_registry_projects d n m) as Hreg;
      destruct (update_project_registry d n m) as [[?|?] d7]
  end; cbn [snd] in Hreg; rewrite ?broadcast_returns;
    cbn [fst snd storage write_current_project set_current_project_file projects];
    rewrite Hreg; unfold create_project_directory; rewrite Hnone;
    unfold write_project_file, new_project_directory;
    cbn [set_projects projects];
    repeat (rewrite lookup_insert_eq; cbn [set_projects projects]);
    rewrite ?insert_insert_eq; by rewrite insert_empty.
Qed.

(** A project that [host_tool] creates can be loaded: the files are on
    disk before the registry is touched, so, however the registry update
    and the broadcast end, the directory exists, [read_project_files]
    loads the five new documents (the summary as its text reads), and
    another [host_tool] under the same name is refused. *)
Theorem host_tool_creates_loadable_project e e' s name react_info :
  String.eqb name "" = false →
  isalnum (str_replace "_" "" name) = true →
  project_exists (storage s) name = false →
  react e = Returned react_info →
  let s' := (handle_host_tool e (Some name) s).2 in
  project_exists (storage s') name = true ∧
  read_project_files (storage s') name =
    Some [("requirements", new_requirements name (now e));
          ("ddd", new_ddd);
          ("frontend_data", new_frontend_data);
          ("technical_architecture", new_technical_architecture);
          ("summary",
           VStr (universal_newlines (new_summary name (pretty_date e))))] ∧
  handle_host_tool e' (Some name) s' =
    (Returned (error_reply ("Project '" +:+ name +:+ "' already exists")), s').
Proof.
  intros Hname Halnum Hfresh Hreact s'.
  pose proof (host_tool_projects e s name react_info Hname Halnum Hfresh Hreact)
    as Hprojects.
  fold s' in Hprojects.
  assert (Hexists : project_exists (storage s') name = true).
  { unfold project_exists. rewrite Hprojects, lookup_insert_eq.
    by apply bool_decide_eq_true. }
  split; [exact Hexists | split].
  - unfold read_project_files. rewrite Hprojects, lookup_insert_eq.
    reflexivity.
  - unfold handle_host_tool. by rewrite Hname, Halnum, Hexists.
Qed.

Lemma host_tool_creates_loadable_project_witness :
  read_project_files (storage demo1_loaded) "demo1" =
    Some [("requirements", new_requirements "demo1" (now morning));
          ("ddd", new_ddd);
          ("frontend_data", new_frontend_data);
          ("technical_architecture", new_technical_architecture);
          ("summary", VStr (new_summary "demo1" (pretty_date morning)))].
Proof.
  refine (proj1 (proj2 (host_tool_creates_loadable_project morning noon
                          (initial_server empty_disk) "demo1"
                          [("react_server", VStr "already_running")] _ _ _ _)));
    reflexivity.
Defined.

(** After [select_project] has loaded a project, [get_project_data]
    answers with the documents that are on disk, under the name that was
    selected, and the documents on disk are as they were. *)
Theorem select_then_get_project_data e s name react_info project_files :
  String.eqb name "" = false →
  react e = Returned react_info →
  read_project_files (storage s) name = Some project_files →
  let s' := (handle_select_project e (Some name) s).2 in
  handle_get_project_data s' =
    (Returned
       [("status", VStr "success");
        ("project_name", VStr name);
        ("requirements", dict_get_default "requirements" (VDict []) project_files);
        ("ddd", dict_get_default "ddd" (VDict []) project_files);
        ("frontend_data", dict_get_default "frontend_data" (VDict []) project_files);
        ("technical_architecture",
         dict_get_default "technical_architecture" (VDict []) project_files);
        ("summary", dict_get_default "summary" (VStr "") project_files)], s') ∧
  read_project_files (storage s') name = Some project_files.
Proof.
  intros Hname Hreact Hfiles s'. subst s'.
  assert (Hexists : project_exists (storage s) name = true).
  { unfold project_exists. unfold read_project_files in Hfiles.
    destruct (projects (storage s) !! name); [| done].
    by apply bool_decide_eq_true. }
  unfold handle_select_project. rewrite Hname, Hexists, Hreact, Hfiles.
  cbv zeta. rewrite broadcast_returns. cbn [negb fst snd].
  unfold handle_get_project_data.
  cbn [current_project_data project_name requirements ddd frontend_data
       technical_architecture summary storage].
  rewrite Hname. split; [reflexivity | exact Hfiles].
Qed.

Lemma select_then_get_project_data_witness :
  status_of (handle_get_project_data
               (handle_select_project noon (Some "demo1") demo1_edited_outside).2).1
  = VStr "success".
Proof.
  refine (eq_trans
            (f_equal (λ r, status_of r.1)
               (proj1 (select_then_get_project_data noon demo1_edited_outside
                         "demo1" [("react_server", VStr "already_running")]
                         _ _ _ _)))
            _);
    reflexivity.
Defined.

(** *** What an update does to the state store *)

(** A successful [update_project_files] names the state store after the
    project it updated and replaces the one document the file type stands
    for by the document the reply carries.  The other four documents stay
    as they were, also when they were loaded from a different project. *)
Theorem update_changes_one_document e s name file_type update_data merge_strategy
    result s' :
  handle_update_project_files e (Some name) (Some file_type) update_data
    merge_strategy s = (Returned result, s') →
  dict_get "status" result = Some (VStr "success") →
  let updated_data := dict_get_default "updated_data" VNone result in
  let before := current_project_data s in
  let after := current_project_data s' in
  project_name after = name ∧
  requirements after =
    (if String.eqb file_type "requirement.js" then updated_data
     else requirements before) ∧
  ddd after =
    (if String.eqb file_type "ddd.js" then updated_data else ddd before) ∧
  frontend_data after =
    (if String.eqb file_type "frontend_data.js" then updated_data
     else frontend_data before) ∧
  technical_architecture after =
    (if String.eqb file_type "technical_architecture.js" then updated_data
     else technical_architecture before) ∧
  summary after =
    (if String.eqb file_type "summary.md" then updated_data else summary before).
Proof.
  intros Hcall Hstatus. unfold handle_update_project_files in Hcall.
  cbv zeta in Hcall.
  repeat (cbn [fst snd] in Hcall; rewrite ?broadcast_returns in Hcall;
          match type of Hcall with
          | context [match ?x with _ => _ end] => destruct x eqn:?
          end);
    injection Hcall as <- <-;
    try (by vm_compute in Hstatus);
    try (by match goal with
            | ex : exn |- _ => destruct ex; vm_compute in Hstatus
            end).
  all: match goal with
       | H : negb (bool_decide (_ ∈ VALID_FILE_TYPES)) = false |- _ =>
           apply negb_false_iff, bool_decide_eq_true in H;
           unfold VALID_FILE_TYPES in H;
           repeat (apply elem_of_cons in H as [[= -> ->]|H]);
           [ .. | by apply elem_of_nil in H ]
       end.
  all: by repeat split.
Qed.

Lemma update_changes_one_document_witness :
  ddd (current_project_data (call_tool noon login_update demo1_loaded).2) =
  ddd (current_project_data demo1_loaded).
Proof.
  refine (proj1 (proj2 (proj2
            (update_changes_one_document noon demo1_loaded "demo1"
               "requirement.js"
               (Some (VDict [("features", VList [VStr "login"])]))
               (Some "merge") _ _ _ _))));
    [vm_compute; reflexivity | reflexivity].
Defined.

End Server.
